(* ===== verification/_CoqProject ===== *)
-Q . S2P
Prelude.v
Arena.v
Sizing.v
Ledger.v
StatFile.v
Scheduler.v
Liveness.v
Logging.v
