(* ===== verification/Prelude.v ===== *)
(** * A verification library for the single-event-upset detector

    The program ([src/main.py]) is one Python class, [SEUDetector], and a
    [__main__] block.  The detector allocates a large bit buffer, zeroes
    it, and every [CHECK_DATA_EVERY] = 10 seconds scans it for a bit that
    has flipped to one (a single-event upset).  Every
    [CHECK_MEMORY_EVERY] = 1 second it asks how much memory is free and
    resizes the buffer when the size it wants moved by more than 20%.  A
    checkpoint ([check_data]) folds the elapsed period into the statistics
    (bit-seconds, run time, upset count) and writes them to [stat.json].
    An upset sets [force_reinit], which makes the next memory check
    reallocate (and so clear) the buffer.

    ** Files, and the code each one models

    - [Prelude] (this file): what all components share.
      - The Python exceptions the core raises ([py_exc]).
      - The result type [result] with its bind notation [let*] in
        [seu_scope].
      - Python's [int()] on a number ([py_int], truncation toward zero).
      - The class [PyNum] of the number types statistics are computed
        in: an instance on exact rationals [Q], used by the proofs, and
        one on binary64 [PrimFloat.float], which is CPython's [float].
      - The hint database [seu], the tactics [qle_bool_hyps] (the
        code's boolean comparisons as rational facts) and [qle_bool_eval]
        (the comparisons [lra] decides, evaluated in the goal), and a
        [lia] that eliminates division by constants.
    - [Arena] (Module [BitArena]): the buffer [self.data] as a list of
      bits.
      - [bitarray_new] is [bitarray.bitarray(n)]: fresh memory with
        arbitrary content [junk], or [ValueError] when [n < 0].
      - [setall], and [update_array] (lines 161-172).
      - [index] is [bitarray.index], a sub-array search raising
        [ValueError]; [scan] is the search of [check_data] (line 193).
      - The detector's fields ([detector], [__init__]) are here too.
      - The physical fault the program measures is the environment action
        [flip_bit], not program code.
    - [Sizing] (Module [SizingPolicy]): [get_memory_to_use] (lines 77-84)
      and [should_update_array] (lines 86-105).
      - The decision codes are the integers 0, 1, 2 of the source.
      - The contract of spec section 4.1 is the inductive relation
        [decide_spec], with one guarded rule per case instead of the
        code's evaluation order.
    - [Ledger] (Module [Statistics]): the record [TStat] (lines 52-57),
      [load_statistics], [dump_statistics], and [check_data] (lines
      180-201).
      - Each operation is written once over [PyNum].
      - The state [check_data] reads and writes is a [world]: the
        detector, the single [stat] dict that [run] creates and passes to
        every [run_once] and [check_data] call (one slot, updated in
        place, as the Python code aliases it), and the content of
        [stat.json] (absent, or the record last dumped).
      - [dump_statistics] replaces the file in one step.  The code opens
        it with mode ['w'] (emptying it) before [json.dump] writes; the
        model does not separate the two, so it states no durability
        result (see the findings).
    - [Scheduler] (Module [Scheduler]): [run] and [run_once] (lines
      124-159) and the exception handling of [__main__], as a machine.
      - The state [sched] holds the world, the wall clock, the
        free-memory reading, the locals [start_at], [last_check_mem],
        [last_check_data] and the evaluated first argument of [min], and
        a program counter [pc] whose constructors are the statements.
      - [exec] executes one statement.  [mem_check] and [data_check] are
        the two branches of [run_once], with their guards and early
        returns; [realloc] is [update_array] followed by [return].
      - The section variable [grant] says whether the system grants an
        allocation in a given state; a refusal is the [MemoryError] of
        [bitarray(use_bits)] (line 169), fatal as spec section 7 says.
        [junk] is the content of fresh memory.
      - [step] takes one [input] from the environment: the clock advances
        ([Tick]), the free memory changes ([SetFree]), a particle flips a
        bit ([Upset]), the operator interrupts ([Interrupt]), or the
        program executes its next statement ([Go]).
      - [step] is a total executable function and [run_inputs] folds it
        over a list, so every interleaving of statements with clock
        advances and faults is one list of inputs.  [reachable] is the
        inductive closure of the start states [init] under [step].
      - [PC_Crashed] is an exception that reached [__main__];
        [PC_Exited] is [KeyboardInterrupt].
    - [StatFile] (Module [StatFile]): the [stat] object as the Python
      value [json.load] returns ([pyval]: int, float, bool, str, None,
      list, dict), with [py_getitem] ([KeyError], or [TypeError] on a
      value that is not a dict), [py_setitem], [+] and [/] of Python
      numbers ([TypeError] otherwise).
      - [load_statistics_dict] (lines 107-118): the file absent, parsed,
        or malformed ([JSONDecodeError], a [ValueError]).
      - [check_data_dict] (lines 180-201): [check_data] statement by
        statement on that object, ending in the dump.
      - [stat_of_dict] reads a dict through the field types of [TStat];
        it is the abstraction that relates this file to [Ledger].
    - [Liveness] (Module [Liveness]): the scheduler under a punctual
      environment ([on_time]: run the program, and advance the clock to
      the wake-up time when it sleeps) for [n] moves ([drive]).
    - [Logging] (Module [Logging]): the [logging] module as the program
      uses it, and the core's functions with their log calls.
      - [logger0] (line 11), [init_logging] (lines 14-34), [emit]: the
        records each sink (standard error, [detector.log]) receives.
      - [M]: a state-and-exception monad (stdpp's [MRet]/[MBind]) over
        the clock readings, the free memory, the logger and the sinks;
        [catch] and [finally] are [try/except] and [try/finally].
      - [get_free_memory] (lines 37-38), [measure] (lines 41-49) with
        Python's [round] as [py_round].
      - [get_memory_to_use_m], [update_array_m] (with the [MemoryError]
        of a refused allocation), [check_data_m] and [main_m] (lines
        204-215): the core with its log calls.

    ** How the components interact

    - The machine of [Scheduler] calls [Sizing] at the memory check,
      [Arena]'s [update_array] through [realloc], and [Ledger]'s
      [check_data] at the data check and before a growth.
    - [Ledger]'s record model is the one the machine uses; [StatFile]
      shows it is what the Python dict computes whenever [stat.json]
      conforms to [TStat] (C24), and what happens when it does not.
    - [Logging]'s versions of [check_data], [update_array] and
      [get_memory_to_use] are the unlogged expressions with the log calls
      and timed blocks around them; their theorems are about what reaches
      the console and [detector.log].

    ** What the theorems show (claims C1-C27)

    - Scheduler.  Rule induction over [reachable] and over runs:
      - [force_reinit_cleared_before_scan] (C1): [force_reinit] is never
        set at a data check, so an upset is never counted twice.
      - [ideal_never_crashes] (C4): with a clock that advances only while
        the program sleeps, the only exception that can end the detector
        is the [MemoryError] of a refused allocation, and with every
        allocation granted it never crashes.
      - [buffer_whole_bytes] (C20): the buffer is always a whole number
        of bytes.
    - Scheduler, further results:
      - [upset_detected] (C2): a bit flipped before a due data check is
        counted exactly once, re-arms [force_reinit] and forces the next
        sizing decision.
      - [no_upset_no_count] (C3): without faults the persisted count
        never changes.
      - [sleep_negative_crash] (C5): a two-microsecond delay between two
        statements makes [time.sleep] receive a negative duration and
        crash the detector, a bug of the code.
    - Sizing:
      - [should_update_array_refines] (C6): the method refines
        [decide_spec].
      - [no_thrash] (C10): no reallocation while the total memory is
        unchanged.
      - [get_memory_to_use_bounds] (C13): [get_memory_to_use] equals an
        integer formula and never exceeds three quarters of the memory.
      - [constant_probe_regrows] (C12): a probe that keeps reporting the
        same free memory makes the buffer grow again, which spec
        section 8 does not expect.
    - Ledger:
      - [check_data_spec] (C7): [check_data]'s effect in closed form.
      - [check_data_float_not_additive] (C11): in binary64 a checkpoint
        adds the rounded period and exposure, so checkpoints are not
        additive, as spec section 8 claims they are.
      - [check_data_monotone] (C14): the counters never decrease.
    - Arena:
      - [scan_correct] (C8): the scan returns the first set bit or
        [ValueError] exactly on an all-zero buffer.
      - [scan_after_update_array] (C9): a fresh buffer scans clean
        whatever memory held.
      - [scan_flip_bit] (C15): a single fault is found at its index.
      - [update_array_spec] (C16): allocation, and its error.
    - Liveness:
      - [run_once_terminates] (C17): under the punctual clock and a
        stable memory reading, [run_once] returns after 61 moves, ten
        seconds later.
      - [period_checkpointed] (C18): that return goes through a
        checkpoint counting the ten seconds and any upset present.
      - [no_check_drops_period] (C19): a period that ends in
        [UPDATE_NO_CHECK] is not counted, and an upset in the old buffer
        is discarded (or the detector dies of [MemoryError]).
    - StatFile:
      - [check_data_dict_refines] (C21): refinement of [Ledger] by the
        dict model through [stat_of_dict], the dump included.
      - [check_data_dict_typed] (C22): after a checkpoint the fields have
        [TStat]'s Python types.
      - [check_data_dict_missing_measure] (C23) and
        [check_data_dict_missing_count] (C24): the [KeyError]s of a file
        without [bitSeconds] or [runSeconds] (every checkpoint), or
        without [SEUCases] (the first checkpoint that finds an upset).
    - Logging:
      - [init_logging_routing] (C25): console from [INFO], file from
        [DEBUG].
      - [check_data_m_log] (C26): what a checkpoint logs where; every
        counted upset reaches the console.
      - [update_array_m_refused] (C27): a refused allocation logs its size
        line and the [memalloc] duration, then raises [MemoryError].
    - Each theorem with hypotheses has a witness that applies it to a
      concrete run ([demo_start], [demo_period], [drift_prefix],
      [demo_ready], [demo_shrink]) or value, evaluated by [vm_compute].

    ** Numbers, bounds and fuel

    - Time and the float fields of [TStat] are exact rationals [Q] in the
      machine; Python computes them in binary64.  The results about the
      counters (C7, C14, C18) are about exact values; C11 runs
      [check_data] in binary64 and shows where rounding makes the
      program differ from the exact law the spec states.
    - The threshold [0.2] is the rational [1/5].  Python compares the
      correctly rounded quotient [abs(delta)/min(...)] with the double
      nearest [0.2] (within [2^-56] of [1/5]).  For lengths below
      [2^50] bits, an exact quotient that differs from [1/5] differs by
      more than [2^-53], far more than either rounding.  So both tests
      agree (an argument on paper; binary64 division is not modelled).
    - Lengths are [nat] (the length of the list) and sizes [Z]: Python
      integers have no width.  [PrimFloat]'s conversion of an [int] is
      exact below [2^53].
    - No fuel is needed for the program: [step] executes one statement,
      runs are finite lists of inputs, and every recursion is
      structural.  The liveness results count moves instead: one second
      of [run_once] is 6 moves (compute the two sleep arguments, sleep,
      advance the clock, wake, memory check, data check), and 61 = 1 + 6
      * 10 moves take [run_once] from its first statement to its
      return.  61 is exact, not a bound: the tenth data check is the
      first that is due.
    - [py_round] rounds an exact rational half to even; CPython rounds
      the exact binary value of the float the same way.

    ** Not modelled, and why

    - The text of log records (the [Formatter]): records are [event]s
      carrying the values the f-strings show.
    - [psutil.virtual_memory().free] itself: its reading is an input
      ([SetFree], [e_free]), a natural number of bytes.
    - The JSON text of [stat.json]: a file is absent, a parsed value, or
      malformed; the printing and parsing of numbers is [json]'s.
    - The machine of [Scheduler] runs the record model of the ledger and
      the unlogged operations; [StatFile] relates the dict model to the
      record model operation by operation (C21), not along whole runs.
    - The two phases of [dump_statistics] (truncate, then write): the
      write is one step, so an interruption inside it is not a state of
      the model (see the findings).
    - The time [check_data] takes: its own [time.time()] (line 182) and
      [last_check_mem = time.time()] (line 153) read the clock the memory
      test read (line 140), since the memory branch is one statement.
    - Wall-clock jumps backwards: the clock of the model never decreases.
    - The time spent inside one statement: each statement reads the clock
      once, and the environment may advance it between any two
      statements.
    - Python's [del self.data] before a failing allocation: the process
      then ends, so the missing attribute is never observed.

    ** Plan for the next steps

    1. An interface ([Class]) for the ledger that the machine uses,
       implemented by the record model and by the dict model, so that
       the crash of a malformed [stat.json] (C23, C24) is a run of the
       machine.
    2. The two phases of [dump_statistics] as two statements of the
       machine, with the truncated file as a state of [stat.json].
    3. An interface for the arena, implemented by the dense list and by
       a sparse model (length and the set of flipped indices), with a
       refinement theorem.
    4. [Proper] instances of [check_data] for equality of rationals, so
       that periods can be rewritten with [Qeq].
    5. Liveness under a varying memory reading: a checkpoint within ten
       seconds of every period that does not end in [UPDATE_NO_CHECK].
*)

From Stdlib Require Export QArith Qround Lqa ZArith Lia Bool.
From Stdlib Require Floats.
From stdpp Require Export base list options.

Declare Scope seu_scope.
Delimit Scope seu_scope with seu.
Open Scope seu_scope.

(** ** Python exceptions and fallible computations *)

(** [ValueError] is what the core raises ([bitarray(n)] with [n < 0],
    [time.sleep] with a negative duration, [bitarray.index] of an absent
    sub-array, [json.load] of a malformed file, whose [JSONDecodeError]
    is a [ValueError]); [KeyError] is what [check_data] raises on a
    [stat] dict that lacks a key it reads; [TypeError] is what Python
    raises on [+] or [/] of a value that is not a number, or on indexing a
    value that is not a dict; [KeyboardInterrupt] is what Ctrl-C raises
    in the main thread (not an [Exception]: [__main__] catches it
    first); [MemoryError] is what [bitarray(n)] raises when the system
    does not grant the memory. *)
Inductive py_exc :=
| ValueError
| KeyError
| TypeError
| MemoryError
| KeyboardInterrupt.

#[export] Instance py_exc_eq_dec : EqDecision py_exc.
Proof. solve_decision. Defined.

Inductive result (A : Type) :=
| Ok (a : A)
| Err (e : py_exc).
Arguments Ok {A} a.
Arguments Err {A} e.

Notation "'let*' x ':=' m 'in' k" :=
  (match m with Ok x => k | Err e => Err e end)
  (at level 10, x name, m at level 200, k at level 200) : seu_scope.

(** ** Python numbers *)

(** The arithmetic the statistics use: Python's [+], [-], [*], [/] on
    floats and the conversion of an [int] operand. *)
Class PyNum (A : Type) := {
  num_add : A -> A -> A;
  num_sub : A -> A -> A;
  num_mul : A -> A -> A;
  num_div : A -> A -> A;
  num_of_Z : Z -> A
}.

#[export] Instance PyNum_Q : PyNum Q := {
  num_add := Qplus; num_sub := Qminus; num_mul := Qmult;
  num_div := Qdiv; num_of_Z := inject_Z
}.

(** Binary64, as CPython's [float]; [num_of_Z] is exact below [2^53] and
    correctly rounded below [2^63]. *)
#[export] Instance PyNum_float : PyNum PrimFloat.float := {
  num_add := PrimFloat.add; num_sub := PrimFloat.sub;
  num_mul := PrimFloat.mul; num_div := PrimFloat.div;
  num_of_Z := fun z =>
    if (z <? 0)%Z then PrimFloat.opp (PrimFloat.of_uint63 (Uint63.of_Z (- z)))
    else PrimFloat.of_uint63 (Uint63.of_Z z)
}.

(** [int(x)] on a number: truncation toward zero. *)
Definition py_int (q : Q) : Z :=
  if Qle_bool 0 q then Qfloor q else (- Qfloor (- q))%Z.

(** ** Shared lemmas *)

Create HintDb seu.

(** [lia] eliminates [Z.div] and [Z.modulo] by constants through their
    Euclidean equations. *)
Ltac Zify.zify_post_hook ::= Z.to_euclidean_division_equations.

Lemma py_int_nonneg (q : Q) : (0 <= q)%Q -> py_int q = Qfloor q.
Proof. intros H. unfold py_int. by rewrite (proj2 (Qle_bool_iff 0 q) H). Qed.

Lemma Qfloor_nonneg (q : Q) : (0 <= q)%Q -> (0 <= Qfloor q)%Z.
Proof.
  intros H. rewrite <- (Qfloor_Z 0). apply Qfloor_resp_le. exact H.
Qed.

Lemma inject_Z_nat_nonneg (n : nat) : (0 <= inject_Z (Z.of_nat n))%Q.
Proof. change 0%Q with (inject_Z 0). rewrite <- Zle_Qle. lia. Qed.

Lemma Qle_bool_false (a b : Q) : Qle_bool a b = false <-> (b < a)%Q.
Proof.
  split; intros H.
  - apply Qnot_le_lt. intros Hle. apply Qle_bool_iff in Hle. congruence.
  - destruct (Qle_bool a b) eqn:E; [|done]. apply Qle_bool_iff in E. lra.
Qed.

#[export] Hint Resolve inject_Z_nat_nonneg Qfloor_nonneg : seu.

(** Turns the boolean comparisons of the code into rational facts. *)
Ltac qle_bool_hyps :=
  repeat match goal with
  | H : Qle_bool _ _ = true |- _ => apply Qle_bool_iff in H
  | H : Qle_bool _ _ = false |- _ => apply Qle_bool_false in H
  end.

(** Closes linear goals over [Q] after turning [inject_Z] of sums and
    products into rational sums and products. *)
Ltac qarith :=
  repeat rewrite ?inject_Z_plus, ?inject_Z_mult, ?inject_Z_opp in *;
  try lra.

(** Evaluates the boolean comparisons of the goal whose outcome [lra]
    decides from the hypotheses. *)
Ltac qle_bool_eval :=
  repeat match goal with
  | |- context [Qle_bool ?a ?b] =>
      first [ rewrite (proj2 (Qle_bool_iff a b)) by lra
            | rewrite (proj2 (Qle_bool_false a b)) by lra ]
  end.
