(* ===== verification/Arena.v ===== *)
(** * The monitored bit buffer ([BitArena])

    [SEUDetector.data] is a [bitarray.bitarray]; it is modelled as a list
    of bits.  This file holds the allocation ([bitarray.bitarray(n)] then
    [setall(0)], in [update_array]), the sub-array search
    [bitarray.index] and the scan of [check_data], the detector's own
    fields, and the physical fault [flip_bit] that the program measures. *)

From S2P Require Import Prelude.

Module BitArena.

Abbreviation bitarray := (list bool).

(** [bitarray.bitarray(n)]: [n] bits of fresh memory whose content is
    whatever the allocator left there ([junk]); a negative length raises
    [ValueError]. *)
Definition bitarray_new (junk : nat -> bool) (n : Z) : result bitarray :=
  if (n <? 0)%Z then Err ValueError
  else Ok (map junk (seq 0 (Z.to_nat n))).

(** [a.setall(b)] *)
Definition setall (b : bool) (a : bitarray) : bitarray := map (fun _ => b) a.

(** [a[0:len(sub)] == sub] *)
Fixpoint is_prefix (sub a : bitarray) : bool :=
  match sub, a with
  | [], _ => true
  | x :: sub', y :: a' => Bool.eqb x y && is_prefix sub' a'
  | _ :: _, [] => false
  end.

(** The search of [bitarray.index] from position [i]. *)
Fixpoint index_from (sub a : bitarray) (i : nat) : option nat :=
  if is_prefix sub a then Some i
  else match a with
       | [] => None
       | _ :: a' => index_from sub a' (S i)
       end.

(** [a.index(sub)]: the least [i] with [a[i:i+len(sub)] == sub], or
    [ValueError] when [sub] does not occur. *)
Definition index (a sub : bitarray) : result nat :=
  match index_from sub a 0 with
  | Some i => Ok i
  | None => Err ValueError
  end.

(** [one = bitarray.bitarray(1); one.setall(1)] *)
Definition one : bitarray := setall true [false].

(** [self.data.index(one)], the scan of [check_data]. *)
Definition scan (a : bitarray) : result nat := index a one.

(** The state of an [SEUDetector] object ([__init__]). *)
Record detector := mk_detector {
  data : bitarray;
  force_reinit : bool
}.

Definition detector_init : detector := mk_detector [] false.

(** [len(self.data)] *)
Definition len_bits (d : detector) : Z := Z.of_nat (length (data d)).

(** [update_array]: release the buffer, allocate [use_bits] fresh bits,
    and zero them. *)
Definition update_array (junk : nat -> bool) (use_bits : Z) (d : detector)
    : result detector :=
  let* a := bitarray_new junk use_bits in
  Ok (mk_detector (setall false a) (force_reinit d)).

(** A particle flips bit [i] of the buffer (no cell, no flip, out of range). *)
Definition flip_bit (i : nat) (a : bitarray) : bitarray := <[i := true]> a.

(** Reference for the scan: the position of the first set bit. *)
Fixpoint first_one (a : bitarray) : option nat :=
  match a with
  | [] => None
  | b :: a' => if b then Some 0 else S <$> first_one a'
  end.

(** All bits are zero. *)
Definition all_zero (a : bitarray) : bool := forallb negb a.

(** ** Lemmas *)

Lemma index_from_one (a : bitarray) (i : nat) :
  index_from one a i = (fun k => k + i) <$> first_one a.
Proof.
  revert i. induction a as [|[] a IH]; intros i; simpl; [done..|].
  rewrite IH. destruct (first_one a); simpl; f_equal; lia.
Qed.

Lemma scan_first_one (a : bitarray) :
  scan a = match first_one a with Some i => Ok i | None => Err ValueError end.
Proof.
  unfold scan, index. rewrite index_from_one.
  destruct (first_one a); simpl; [by rewrite Nat.add_0_r | done].
Qed.

Lemma first_one_Some (a : bitarray) (i : nat) :
  first_one a = Some i <->
  a !! i = Some true /\ (forall j, j < i -> a !! j = Some false).
Proof.
  revert i. induction a as [|b a IH]; intros i.
  - simpl. split; [done | by intros [? _]].
  - destruct b; simpl.
    + split; [intros [= <-]; split; [done | lia] |].
      intros [Hi Hlt]. destruct i as [|i]; [done|].
      by specialize (Hlt 0 ltac:(lia)).
    + rewrite fmap_Some. split.
      * intros (k & Hk & ->). apply IH in Hk as [Hk Hlt]. split; [done|].
        intros [|j] Hj; simpl; [done|]. apply Hlt. lia.
      * intros [Hi Hlt]. destruct i as [|i]; [done|]. exists i.
        split; [|done]. apply IH. split; [done|].
        intros j Hj. apply (Hlt (S j)). lia.
Qed.

Lemma first_one_None (a : bitarray) : first_one a = None <-> all_zero a = true.
Proof.
  induction a as [|[] a IH]; simpl; [done | done |]. by rewrite fmap_None.
Qed.

Lemma all_zero_lookup (a : bitarray) (j : nat) (b : bool) :
  all_zero a = true -> a !! j = Some b -> b = false.
Proof.
  revert j. induction a as [|c a IH]; intros j Hz Hj; [done|].
  simpl in Hz. apply andb_true_iff in Hz as [Hc Hz].
  destruct j as [|j]; simpl in Hj; [|by eapply IH].
  injection Hj as <-. by destruct c.
Qed.

Lemma setall_replicate (b : bool) (a : bitarray) :
  setall b a = replicate (length a) b.
Proof. induction a as [|c a IH]; simpl; [done | by rewrite <- IH]. Qed.

Lemma all_zero_replicate (n : nat) : all_zero (replicate n false) = true.
Proof. induction n; simpl; auto. Qed.

Lemma len_bits_nonneg (d : detector) : (0 <= len_bits d)%Z.
Proof. unfold len_bits. lia. Qed.

Lemma inject_len_bits_nonneg (d : detector) : (0 <= inject_Z (len_bits d))%Q.
Proof. apply inject_Z_nat_nonneg. Qed.

#[export] Hint Resolve all_zero_replicate len_bits_nonneg inject_len_bits_nonneg : seu.

Lemma scan_Ok_iff (a : bitarray) (i : nat) :
  scan a = Ok i <->
  a !! i = Some true /\ (forall j, j < i -> a !! j = Some false).
Proof.
  rewrite scan_first_one, <- first_one_Some.
  destruct (first_one a); split; congruence.
Qed.

Lemma scan_Err_iff (a : bitarray) (e : py_exc) :
  scan a = Err e <-> e = ValueError /\ all_zero a = true.
Proof.
  rewrite scan_first_one, <- first_one_None.
  destruct (first_one a); split.
  - done.
  - by intros [_ ?].
  - by intros [= <-].
  - by intros [-> _].
Qed.

Lemma update_array_Ok_eq (junk : nat -> bool) (use_bits : Z) (d : detector) :
  (0 <= use_bits)%Z ->
  update_array junk use_bits d =
    Ok (mk_detector (replicate (Z.to_nat use_bits) false) (force_reinit d)).
Proof.
  intros H. unfold update_array, bitarray_new.
  destruct (Z.ltb_spec use_bits 0); [lia|].
  by rewrite setall_replicate, length_map, length_seq.
Qed.

Lemma update_array_Err (junk : nat -> bool) (use_bits : Z) (d : detector) (e : py_exc) :
  update_array junk use_bits d = Err e -> e = ValueError /\ (use_bits < 0)%Z.
Proof.
  unfold update_array, bitarray_new.
  destruct (Z.ltb_spec use_bits 0); [by intros [= <-] | done].
Qed.

Lemma update_array_zero (junk : nat -> bool) (use_bits : Z) (d d' : detector) :
  update_array junk use_bits d = Ok d' -> all_zero (data d') = true.
Proof.
  unfold update_array, bitarray_new. destruct (Z.ltb_spec use_bits 0); [done|].
  intros [= <-]. simpl. rewrite setall_replicate. apply all_zero_replicate.
Qed.

Lemma update_array_force (junk : nat -> bool) (use_bits : Z) (d d' : detector) :
  update_array junk use_bits d = Ok d' -> force_reinit d' = force_reinit d.
Proof.
  unfold update_array, bitarray_new. destruct (Z.ltb_spec use_bits 0); [done|].
  by intros [= <-].
Qed.

Lemma update_array_len (junk : nat -> bool) (use_bits : Z) (d d' : detector) :
  update_array junk use_bits d = Ok d' -> len_bits d' = use_bits.
Proof.
  unfold update_array, bitarray_new. destruct (Z.ltb_spec use_bits 0); [done|].
  intros [= <-]. unfold len_bits. simpl.
  rewrite setall_replicate, length_replicate, length_map, length_seq. lia.
Qed.

Lemma len_bits_flip_bit (i : nat) (d : detector) (f : bool) :
  len_bits (mk_detector (flip_bit i (data d)) f) = len_bits d.
Proof. unfold len_bits, flip_bit. simpl. by rewrite length_insert. Qed.

Lemma flip_bit_not_zero (a : bitarray) (i : nat) :
  i < length a -> all_zero (flip_bit i a) = false.
Proof.
  intros Hi. destruct (all_zero (flip_bit i a)) eqn:E; [|done].
  assert (Hl : flip_bit i a !! i = Some true) by (by apply list_lookup_insert_eq).
  by pose proof (all_zero_lookup _ _ _ E Hl).
Qed.

(** ** Theorems *)

(** C8: The scan ([self.data.index(one)]) returns [i] exactly when bit
    [i] is set and every bit before it is clear, and raises an exception,
    always [ValueError], exactly when every bit is clear. *)
Theorem scan_correct (a : bitarray) :
  (forall i, scan a = Ok i <->
     a !! i = Some true /\ (forall j, j < i -> a !! j = Some false)) /\
  (forall e, scan a = Err e <-> e = ValueError /\ all_zero a = true).
Proof. split; intros; [apply scan_Ok_iff | apply scan_Err_iff]. Qed.

(** C16: [update_array(use_bits)] replaces the buffer by [use_bits] zero
    bits, whatever the fresh memory held, and leaves [force_reinit]
    alone; with a negative size it raises [ValueError] instead. *)
Theorem update_array_spec (junk : nat -> bool) (use_bits : Z) (d : detector) :
  (0 <= use_bits ->
   update_array junk use_bits d =
     Ok (mk_detector (replicate (Z.to_nat use_bits) false) (force_reinit d)))%Z /\
  (use_bits < 0 -> update_array junk use_bits d = Err ValueError)%Z.
Proof.
  split; [apply update_array_Ok_eq|]. intros H. unfold update_array, bitarray_new.
  by destruct (Z.ltb_spec use_bits 0); [|lia].
Qed.

(** C9: Right after [update_array(n)], for every [n >= 0] (including 0),
    the buffer has [n] bits and the scan finds nothing. *)
Theorem scan_after_update_array (junk : nat -> bool) (n : Z) (d : detector) :
  (0 <= n)%Z ->
  exists d', update_array junk n d = Ok d' /\ len_bits d' = n /\
             scan (data d') = Err ValueError.
Proof.
  intros H. eexists. split; [by apply update_array_Ok_eq|]. split.
  - unfold len_bits. simpl. rewrite length_replicate. lia.
  - apply scan_Err_iff. split; [done|]. apply all_zero_replicate.
Qed.

(** C15: A single fault in an all-zero buffer is found at its index. *)
Theorem scan_flip_bit (a : bitarray) (i : nat) :
  all_zero a = true -> i < length a -> scan (flip_bit i a) = Ok i.
Proof.
  intros Hz Hi. apply scan_Ok_iff. unfold flip_bit. split.
  - by apply list_lookup_insert_eq.
  - intros j Hj. rewrite list_lookup_insert_ne by lia.
    destruct (a !! j) as [b|] eqn:E.
    + by rewrite (all_zero_lookup a j b Hz E).
    + apply lookup_ge_None in E. lia.
Qed.

Lemma update_array_spec_witness :
  (-1 < 0)%Z /\ update_array (fun _ => true) (-1) detector_init = Err ValueError /\
  (0 <= 3)%Z /\ update_array (fun _ => true) 3 detector_init =
                 Ok (mk_detector [false; false; false] false).
Proof.
  assert (Hn : (-1 < 0)%Z) by lia. assert (Hp : (0 <= 3)%Z) by lia.
  split; [exact Hn|]. split; [exact (proj2 (update_array_spec (fun _ => true) (-1) detector_init) Hn)|].
  split; [exact Hp|]. exact (proj1 (update_array_spec (fun _ => true) 3 detector_init) Hp).
Defined.

Lemma scan_after_update_array_witness :
  (0 <= 16)%Z /\
  exists d', update_array (fun _ => true) 16 detector_init = Ok d' /\
             len_bits d' = 16%Z /\ scan (data d') = Err ValueError.
Proof.
  assert (H : (0 <= 16)%Z) by lia.
  split; [exact H|]. exact (scan_after_update_array (fun _ => true) 16 detector_init H).
Defined.

Lemma scan_flip_bit_witness :
  all_zero (replicate 8 false) = true /\ 3 < length (replicate 8 false) /\
  scan (flip_bit 3 (replicate 8 false)) = Ok 3.
Proof.
  assert (Hz : all_zero (replicate 8 false) = true) by reflexivity.
  assert (Hi : 3 < length (replicate 8 false)) by (simpl; lia).
  split; [exact Hz|]. split; [exact Hi|]. exact (scan_flip_bit _ 3 Hz Hi).
Defined.

End BitArena.
