(* ===== verification/Sizing.v ===== *)
(** * The sizing policy ([SizingPolicy])

    [SEUDetector.get_memory_to_use] (how many bytes the detector wants:
    three quarters of the free memory plus its own buffer) and
    [SEUDetector.should_update_array] (whether and how to reallocate),
    with the decision codes kept as the integers of the source.  The
    abstract contract of spec section 4.1 is [decide_spec]. *)

From S2P Require Import Prelude Arena.
Import BitArena.

Module SizingPolicy.

Definition FREE_MEMORY_USAGE_RATE : Q := 3 # 4.
Definition RELATIVE_DATA_LENGTH_CHANGE_TO_UPDATE : Q := 1 # 5.

Definition NO_UPDATE : Z := 0.
Definition UPDATE_NO_CHECK : Z := 1.
Definition UPDATE_WITH_CHECK : Z := 2.

(** [get_memory_to_use]: bytes to use, from the free memory [free] the
    probe reports and the current buffer. *)
Definition get_memory_to_use (free : Z) (d : detector) : Z :=
  let used := (inject_Z (len_bits d) / 8)%Q in
  let total := (inject_Z free + used)%Q in
  py_int (total * FREE_MEMORY_USAGE_RATE)%Q.

(** [should_update_array]: the decision code, and the detector with
    [force_reinit] consumed. *)
Definition should_update_array (d : detector) (use_bits : Z) : Z * detector :=
  if force_reinit d then (UPDATE_NO_CHECK, mk_detector (data d) false)
  else
    let n := len_bits d in
    if negb (use_bits =? 0)%Z && (n =? 0)%Z then (UPDATE_NO_CHECK, d)
    else if (use_bits =? 0)%Z && negb (n =? 0)%Z then (UPDATE_NO_CHECK, d)
    else if (use_bits =? 0)%Z && (n =? 0)%Z then (NO_UPDATE, d)
    else
      let delta := (use_bits - n)%Z in
      let rel := (inject_Z (Z.abs delta) / inject_Z (Z.min use_bits n))%Q in
      if negb (Qle_bool rel RELATIVE_DATA_LENGTH_CHANGE_TO_UPDATE) then
        (if (0 <? delta)%Z then UPDATE_WITH_CHECK else UPDATE_NO_CHECK, d)
      else (NO_UPDATE, d).

(** ** The contract of spec section 4.1 *)

Inductive decision := NoUpdate | UpdateNoCheck | UpdateWithCheck.

Definition code_of (x : decision) : Z :=
  match x with
  | NoUpdate => NO_UPDATE
  | UpdateNoCheck => UPDATE_NO_CHECK
  | UpdateWithCheck => UPDATE_WITH_CHECK
  end.

(** [decide_spec force current desired x]: the rules of section 4.1, each
    with its own guard instead of an evaluation order; a relative change
    above 0.2 is [min < 5 * |desired - current|]. *)
Inductive decide_spec : bool -> Z -> Z -> decision -> Prop :=
| ds_force cur des :
    decide_spec true cur des UpdateNoCheck
| ds_first cur des :
    des <> 0%Z -> cur = 0%Z -> decide_spec false cur des UpdateNoCheck
| ds_release cur des :
    des = 0%Z -> cur <> 0%Z -> decide_spec false cur des UpdateNoCheck
| ds_empty cur des :
    des = 0%Z -> cur = 0%Z -> decide_spec false cur des NoUpdate
| ds_grow cur des :
    cur <> 0%Z -> des <> 0%Z -> (Z.min des cur < 5 * Z.abs (des - cur))%Z ->
    (cur < des)%Z -> decide_spec false cur des UpdateWithCheck
| ds_shrink cur des :
    cur <> 0%Z -> des <> 0%Z -> (Z.min des cur < 5 * Z.abs (des - cur))%Z ->
    (des < cur)%Z -> decide_spec false cur des UpdateNoCheck
| ds_small cur des :
    cur <> 0%Z -> des <> 0%Z -> (5 * Z.abs (des - cur) <= Z.min des cur)%Z ->
    decide_spec false cur des NoUpdate.

(** ** Lemmas *)

Lemma Qdiv_inject_pos (a m : Z) :
  (0 < m)%Z -> (inject_Z a / inject_Z m == a # Z.to_pos m)%Q.
Proof. intros Hm. rewrite Qmake_Qdiv, Z2Pos.id by lia. reflexivity. Qed.

(** The rational test of the code is the integer test of the contract,
    for positive sizes. *)
Lemma rel_gt_iff (a m : Z) :
  (0 < m)%Z ->
  negb (Qle_bool (inject_Z a / inject_Z m)%Q RELATIVE_DATA_LENGTH_CHANGE_TO_UPDATE)
  = (m <? 5 * a)%Z.
Proof.
  intros Hm. unfold RELATIVE_DATA_LENGTH_CHANGE_TO_UPDATE.
  destruct (Qle_bool _ _) eqn:E;
    [apply Qle_bool_iff in E | apply Qle_bool_false in E];
    rewrite Qdiv_inject_pos in E by done; unfold Qle, Qlt in E; simpl in E;
    rewrite Z2Pos.id in E by done; symmetry;
    [apply Z.ltb_ge | apply Z.ltb_lt]; lia.
Qed.

Lemma get_memory_to_use_Z (free : Z) (d : detector) :
  (0 <= free)%Z ->
  get_memory_to_use free d = ((8 * free + len_bits d) * 3 / 32)%Z.
Proof.
  intros Hf. pose proof (len_bits_nonneg d) as Hl.
  unfold get_memory_to_use, FREE_MEMORY_USAGE_RATE.
  assert (Heq : ((inject_Z free + inject_Z (len_bits d) / 8) * (3 # 4)
                 == inject_Z ((8 * free + len_bits d) * 3) / inject_Z 32)%Q).
  { rewrite !inject_Z_mult, inject_Z_plus, inject_Z_mult. field. }
  rewrite py_int_nonneg, Zdiv_Qdiv, Heq; [reflexivity|].
  rewrite Heq. apply Qle_shift_div_l; [reflexivity|].
  rewrite Qmult_0_l. change 0%Q with (inject_Z 0). rewrite <- Zle_Qle. lia.
Qed.

Lemma decide_spec_functional (f : bool) (cur des : Z) (x y : decision) :
  decide_spec f cur des x -> decide_spec f cur des y -> x = y.
Proof. intros Hx Hy. destruct Hx; inversion Hy; subst; done || lia. Qed.

Lemma len_bits_replicate (n : Z) (f : bool) :
  (0 <= n)%Z -> len_bits (mk_detector (replicate (Z.to_nat n) false) f) = n.
Proof. intros Hn. unfold len_bits. simpl. rewrite length_replicate. lia. Qed.

Lemma rel_zero_small (m : Z) :
  Qle_bool (inject_Z (Z.abs 0) / inject_Z m) RELATIVE_DATA_LENGTH_CHANGE_TO_UPDATE = true.
Proof. by destruct m. Qed.

(** Whatever the sizes, [should_update_array] leaves the buffer alone
    and [force_reinit] false. *)
Lemma should_update_array_snd (d : detector) (use_bits : Z) :
  snd (should_update_array d use_bits) = mk_detector (data d) false.
Proof.
  destruct d as [a []]; unfold should_update_array; simpl; [done|].
  by repeat case_match.
Qed.

Lemma should_update_array_decides (d : detector) (use_bits : Z) :
  (0 <= use_bits)%Z ->
  exists x, should_update_array d use_bits = (code_of x, mk_detector (data d) false) /\
            decide_spec (force_reinit d) (len_bits d) use_bits x.
Proof.
  intros Hu. destruct d as [a []]; unfold should_update_array; simpl.
  { exists UpdateNoCheck. split; [done | constructor]. }
  pose proof (len_bits_nonneg (mk_detector a false)) as Hn.
  set (n := len_bits (mk_detector a false)) in *.
  destruct (Z.eqb_spec use_bits 0), (Z.eqb_spec n 0); simpl.
  - exists NoUpdate. split; [done | by constructor].
  - exists UpdateNoCheck. split; [done | by apply ds_release].
  - exists UpdateNoCheck. split; [done | by apply ds_first].
  - rewrite rel_gt_iff by lia.
    destruct (Z.ltb_spec (Z.min use_bits n) (5 * Z.abs (use_bits - n))).
    + destruct (Z.ltb_spec 0 (use_bits - n)).
      * exists UpdateWithCheck. split; [done | apply ds_grow; lia].
      * exists UpdateNoCheck. split; [done | apply ds_shrink; lia].
    + exists NoUpdate. split; [done | apply ds_small; lia].
Qed.

Lemma code_of_inj (x y : decision) : code_of x = code_of y -> x = y.
Proof. by destruct x, y. Qed.

Lemma get_memory_to_use_nonneg (free : N) (d : detector) :
  (0 <= get_memory_to_use (Z.of_N free) d)%Z.
Proof.
  pose proof (len_bits_nonneg d). rewrite get_memory_to_use_Z by lia.
  apply Z.div_pos; lia.
Qed.

(** The code [run_once] receives is always one of the three decision
    codes, so its [else: raise ValueError(should)] branch is dead. *)
Lemma should_update_array_code (d : detector) (use_bits : Z) :
  fst (should_update_array d use_bits) = NO_UPDATE \/
  fst (should_update_array d use_bits) = UPDATE_NO_CHECK \/
  fst (should_update_array d use_bits) = UPDATE_WITH_CHECK.
Proof.
  destruct d as [a []]; unfold should_update_array; simpl; [auto|].
  repeat case_match; simpl; auto.
Qed.

(** ** Theorems *)

(** C6: [should_update_array] refines the contract of spec section 4.1:
    for a non-negative desired size, the code it returns is the code of
    the one decision the contract allows, and the detector it leaves has
    the same buffer with [force_reinit] consumed (false). *)
Theorem should_update_array_refines (d : detector) (use_bits : Z) :
  (0 <= use_bits)%Z ->
  snd (should_update_array d use_bits) = mk_detector (data d) false /\
  forall x, decide_spec (force_reinit d) (len_bits d) use_bits x <->
            fst (should_update_array d use_bits) = code_of x.
Proof.
  intros Hu. destruct (should_update_array_decides d use_bits Hu) as (y & -> & Hy).
  split; [done|]. intros x. split; simpl.
  - intros Hx. by rewrite (decide_spec_functional _ _ _ _ _ Hx Hy).
  - intros ->%code_of_inj. done.
Qed.

(** C13: With a non-negative free-memory figure, the size wanted is the
    integer [floor(3 * (8 * free + len) / 32)] bytes: it is never
    negative and never more than three quarters of the free memory plus
    the current buffer. *)
Theorem get_memory_to_use_bounds (free : Z) (d : detector) :
  (0 <= free)%Z ->
  (0 <= get_memory_to_use free d)%Z /\
  (32 * get_memory_to_use free d <= 3 * (8 * free + len_bits d))%Z /\
  (3 * (8 * free + len_bits d) < 32 * (get_memory_to_use free d + 1))%Z.
Proof.
  intros Hf. pose proof (len_bits_nonneg d).
  rewrite get_memory_to_use_Z by done. lia.
Qed.

(** Asked for the size it already has, a detector with no pending
    re-initialisation keeps its buffer. *)
Lemma should_update_array_same (d : detector) :
  force_reinit d = false -> should_update_array d (len_bits d) = (NO_UPDATE, d).
Proof.
  intros Hf. unfold should_update_array. cbv zeta.
  rewrite Hf, Z.sub_diag, rel_zero_small.
  by destruct (Z.eqb_spec (len_bits d) 0).
Qed.

(** C10: No thrashing.  Once the buffer has the size computed from some
    free-memory reading, a later reading that leaves the total memory
    (free plus buffer) unchanged gives [NO_UPDATE] and leaves the
    detector as it is. *)
Theorem no_thrash (free0 free1 : Z) (d0 d : detector) :
  (0 <= free0)%Z -> (0 <= free1)%Z -> force_reinit d = false ->
  len_bits d = (get_memory_to_use free0 d0 * 8)%Z ->
  (8 * free1 + len_bits d = 8 * free0 + len_bits d0)%Z ->
  should_update_array d (get_memory_to_use free1 d * 8) = (NO_UPDATE, d).
Proof.
  intros H0 H1 Hf Hd Htot.
  rewrite get_memory_to_use_Z in * by done. rewrite Htot, <- Hd.
  by apply should_update_array_same.
Qed.

(** C12: A probe that keeps reporting the same free memory [F >= 2] bytes
    (spec section 8 expects a single allocation then) makes the detector
    grow again right after its first allocation: the code adds its own
    buffer to the reported free memory. *)
Theorem constant_probe_regrows (F : Z) :
  (2 <= F)%Z ->
  let d1 := mk_detector
              (replicate (Z.to_nat (get_memory_to_use F detector_init * 8)) false)
              false in
  fst (should_update_array d1 (get_memory_to_use F d1 * 8)) = UPDATE_WITH_CHECK.
Proof.
  intros HF d1.
  assert (Hd0 : get_memory_to_use F detector_init = (24 * F / 32)%Z).
  { rewrite get_memory_to_use_Z by lia. unfold len_bits. simpl. f_equal. lia. }
  assert (Hl : len_bits d1 = (24 * F / 32 * 8)%Z).
  { unfold d1. rewrite Hd0. apply len_bits_replicate. apply Z.mul_nonneg_nonneg; [|lia].
    apply Z.div_pos; lia. }
  destruct (should_update_array_decides d1 (get_memory_to_use F d1 * 8)) as (x & -> & Hx).
  { rewrite get_memory_to_use_Z by lia. pose proof (len_bits_nonneg d1).
    apply Z.mul_nonneg_nonneg; [apply Z.div_pos|]; lia. }
  rewrite get_memory_to_use_Z in Hx by lia. rewrite Hl in Hx. simpl in Hx.
  inversion Hx; subst; simpl; try done; lia.
Qed.

(** The cases of spec section 8, at a buffer of 1000 bits. *)
Definition detector_of_len (n : nat) : detector := mk_detector (replicate n false) false.

Lemma should_update_array_refines_witness :
  (0 <= 1300)%Z /\
  fst (should_update_array (detector_of_len 1000) 1300) = code_of UpdateWithCheck /\
  (0 <= 700)%Z /\
  fst (should_update_array (detector_of_len 1000) 700) = code_of UpdateNoCheck /\
  (0 <= 1100)%Z /\
  fst (should_update_array (detector_of_len 1000) 1100) = code_of NoUpdate /\
  (0 <= 0)%Z /\
  fst (should_update_array (detector_of_len 1000) 0) = code_of UpdateNoCheck.
Proof.
  assert (L : len_bits (detector_of_len 1000) = 1000%Z) by reflexivity.
  assert (H1 : (0 <= 1300)%Z) by lia. assert (H2 : (0 <= 700)%Z) by lia.
  assert (H3 : (0 <= 1100)%Z) by lia. assert (H4 : (0 <= 0)%Z) by lia.
  split; [exact H1|].
  split. { apply (proj2 (should_update_array_refines _ _ H1)). rewrite L. apply ds_grow; lia. }
  split; [exact H2|].
  split. { apply (proj2 (should_update_array_refines _ _ H2)). rewrite L. apply ds_shrink; lia. }
  split; [exact H3|].
  split. { apply (proj2 (should_update_array_refines _ _ H3)). rewrite L. apply ds_small; lia. }
  split; [exact H4|].
  apply (proj2 (should_update_array_refines _ _ H4)). rewrite L. apply ds_release; lia.
Defined.

Lemma get_memory_to_use_bounds_witness :
  (0 <= 1000)%Z /\ get_memory_to_use 1000 (detector_of_len 2000) = 937%Z /\
  (32 * get_memory_to_use 1000 (detector_of_len 2000) <= 3 * (8 * 1000 + 2000))%Z.
Proof.
  assert (H : (0 <= 1000)%Z) by lia.
  split; [exact H|]. split; [reflexivity|].
  exact (proj1 (proj2 (get_memory_to_use_bounds 1000 (detector_of_len 2000) H))).
Defined.

Lemma no_thrash_witness :
  len_bits (detector_of_len 600) = (get_memory_to_use 100 detector_init * 8)%Z /\
  (8 * 25 + len_bits (detector_of_len 600) = 8 * 100 + len_bits detector_init)%Z /\
  should_update_array (detector_of_len 600) (get_memory_to_use 25 (detector_of_len 600) * 8)
    = (NO_UPDATE, detector_of_len 600).
Proof.
  assert (H0 : (0 <= 100)%Z) by lia. assert (H1 : (0 <= 25)%Z) by lia.
  assert (Hf : force_reinit (detector_of_len 600) = false) by reflexivity.
  assert (Hd : len_bits (detector_of_len 600) = (get_memory_to_use 100 detector_init * 8)%Z)
    by (vm_compute; reflexivity).
  assert (Ht : (8 * 25 + len_bits (detector_of_len 600) = 8 * 100 + len_bits detector_init)%Z)
    by (vm_compute; reflexivity).
  split; [exact Hd|]. split; [exact Ht|].
  exact (no_thrash 100 25 detector_init (detector_of_len 600) H0 H1 Hf Hd Ht).
Defined.

Lemma constant_probe_regrows_witness :
  (2 <= 1000)%Z /\
  fst (should_update_array (detector_of_len 6000)
         (get_memory_to_use 1000 (detector_of_len 6000) * 8)) = UPDATE_WITH_CHECK.
Proof.
  assert (H : (2 <= 1000)%Z) by lia. split; [exact H|].
  exact (constant_probe_regrows 1000 H).
Defined.

End SizingPolicy.
