(* ===== verification/Ledger.v ===== *)
(** * The statistics ledger ([Statistics])

    The [TStat] dict of five fields, [load_statistics] (the file may be
    absent), [dump_statistics] and [check_data], the checkpoint that folds
    one exposure period into the counters, scans the buffer and persists.
    The operations are written once over any [PyNum]: the theorems are
    about exact rationals, and [Ledger] also runs them in binary64 to show
    the one exact law rounding breaks. *)

From S2P Require Import Prelude Arena.
Import BitArena.

Module Statistics.

(** [TStat]: [bitSeconds], [GbitHours], [runSeconds], [runHours] are
    floats, [SEUCases] an int. *)
Record TStat (A : Type) := mk_stat {
  bitSeconds : A;
  GbitHours : A;
  SEUCases : Z;
  runSeconds : A;
  runHours : A
}.
Arguments mk_stat {A} _ _ _ _ _.
Arguments bitSeconds {A} _.
Arguments GbitHours {A} _.
Arguments SEUCases {A} _.
Arguments runSeconds {A} _.
Arguments runHours {A} _.

Section Ops.
Context {A : Type} `{PyNum A}.

(** The defaults of [load_statistics] when [stat.json] is absent. *)
Definition stat_default : TStat A :=
  mk_stat (num_of_Z 0) (num_of_Z 0) 0%Z (num_of_Z 0) (num_of_Z 0).

(** [load_statistics]: [stat.json] holds the record last dumped, or is
    absent ([FileNotFoundError], caught). *)
Definition load_statistics (file : option (TStat A)) : TStat A :=
  match file with
  | Some s => s
  | None => stat_default
  end.

(** [dump_statistics]: overwrite [stat.json] with the record. *)
Definition dump_statistics (s : TStat A) : option (TStat A) := Some s.

(** What [check_data] reads and writes: the detector ([self]), the one
    [stat] dict shared by [run], [run_once] and [check_data], and the
    content of [stat.json]. *)
Record world := mk_world {
  w_det : detector;
  w_stat : TStat A;
  w_file : option (TStat A)
}.

(** [check_data(stat, start_at)], with [now] the value of [time.time()]. *)
Definition check_data (start_at now : A) (w : world) : result world :=
  let d := w_det w in
  let stat := w_stat w in
  let period := num_sub now start_at in
  let bs := num_add (bitSeconds stat) (num_mul (num_of_Z (len_bits d)) period) in
  let gbh := num_div (num_div bs (num_of_Z 3600)) (num_of_Z (10 ^ 9)) in
  let rs := num_add (runSeconds stat) period in
  let rh := num_div rs (num_of_Z 3600) in
  let* found :=
    match scan (data d) with
    | Ok index => Ok true
    | Err ValueError => Ok false
    | Err e => Err e
    end in
  let stat' := mk_stat bs gbh (if found then SEUCases stat + 1 else SEUCases stat)%Z rs rh in
  let d' := if found then mk_detector (data d) true else d in
  Ok (mk_world d' stat' (dump_statistics stat')).

End Ops.

Arguments world A : clear implicits.

(** ** Exact arithmetic *)

(** The derived fields agree with the counters they are derived from. *)
Definition stat_consistent (s : TStat Q) : Prop :=
  (GbitHours s == bitSeconds s / 3600 / inject_Z (10 ^ 9))%Q /\
  (runHours s == runSeconds s / 3600)%Q.

(** ** Lemmas *)

Lemma scan_found (a : bitarray) :
  match scan a with
  | Ok _ => Ok true
  | Err ValueError => Ok false
  | Err e => Err e
  end = Ok (negb (all_zero a)).
Proof.
  rewrite scan_first_one. destruct (first_one a) eqn:E.
  - destruct (all_zero a) eqn:Z; [|done].
    apply first_one_None in Z. congruence.
  - apply first_one_None in E. by rewrite E.
Qed.

(** [check_data] in closed form, for any number type. *)
Lemma check_data_eq {A} `{PyNum A} (start_at now : A) (w : world A) :
  let d := w_det w in
  let stat := w_stat w in
  let found := negb (all_zero (data d)) in
  let bs := num_add (bitSeconds stat) (num_mul (num_of_Z (len_bits d)) (num_sub now start_at)) in
  let rs := num_add (runSeconds stat) (num_sub now start_at) in
  let stat' := mk_stat bs (num_div (num_div bs (num_of_Z 3600)) (num_of_Z (10 ^ 9)))
                 (if found then SEUCases stat + 1 else SEUCases stat)%Z
                 rs (num_div rs (num_of_Z 3600)) in
  check_data start_at now w =
    Ok (mk_world (if found then mk_detector (data d) true else d) stat' (Some stat')).
Proof. unfold check_data. by rewrite scan_found. Qed.

(** ** Theorems *)

(** C7: A checkpoint never fails; it adds the period's exposure
    [len * (now - start_at)] to [bitSeconds] and the period to
    [runSeconds], counts one upset exactly when the buffer holds a set
    bit and then re-arms [force_reinit], leaves the buffer alone, keeps
    the derived hour fields consistent, and persists the new record. *)
Theorem check_data_spec (start_at now : Q) (w : world Q) :
  exists w', check_data start_at now w = Ok w' /\
    (bitSeconds (w_stat w') ==
       bitSeconds (w_stat w) + inject_Z (len_bits (w_det w)) * (now - start_at))%Q /\
    (runSeconds (w_stat w') == runSeconds (w_stat w) + (now - start_at))%Q /\
    SEUCases (w_stat w') =
      (SEUCases (w_stat w) + if all_zero (data (w_det w)) then 0 else 1)%Z /\
    data (w_det w') = data (w_det w) /\
    force_reinit (w_det w') =
      force_reinit (w_det w) || negb (all_zero (data (w_det w))) /\
    stat_consistent (w_stat w') /\
    w_file w' = Some (w_stat w').
Proof.
  eexists. split; [apply check_data_eq|]. simpl.
  destruct (all_zero _); simpl;
    rewrite ?orb_false_r, ?orb_true_r, ?Z.add_0_r;
    repeat split; reflexivity.
Qed.

Lemma check_data_fields (start_at now : Q) (w w' : world Q) :
  check_data start_at now w = Ok w' ->
  (bitSeconds (w_stat w') ==
     bitSeconds (w_stat w) + inject_Z (len_bits (w_det w)) * (now - start_at))%Q /\
  (runSeconds (w_stat w') == runSeconds (w_stat w) + (now - start_at))%Q /\
  (SEUCases (w_stat w) <= SEUCases (w_stat w') <= SEUCases (w_stat w) + 1)%Z /\
  data (w_det w') = data (w_det w) /\ stat_consistent (w_stat w').
Proof.
  intros Hw. rewrite check_data_eq in Hw. injection Hw as <-. simpl.
  destruct (all_zero _); simpl; repeat split; try reflexivity; lia.
Qed.

(** C14: Over a period that does not run backwards, a checkpoint never
    decreases [bitSeconds], [runSeconds] or [SEUCases]; over a period of
    positive length, [runSeconds] strictly increases. *)
Theorem check_data_monotone (start_at now : Q) (w w' : world Q) :
  (start_at <= now)%Q -> check_data start_at now w = Ok w' ->
  (bitSeconds (w_stat w) <= bitSeconds (w_stat w'))%Q /\
  (runSeconds (w_stat w) <= runSeconds (w_stat w'))%Q /\
  (SEUCases (w_stat w) <= SEUCases (w_stat w'))%Z /\
  ((start_at < now)%Q -> (runSeconds (w_stat w) < runSeconds (w_stat w'))%Q).
Proof.
  intros Hle Hw. apply check_data_fields in Hw as (Hb & Hr & Hs & _).
  assert (0 <= inject_Z (len_bits (w_det w)) * (now - start_at))%Q.
  { apply Qmult_le_0_compat; [auto with seu | lra]. }
  rewrite Hb, Hr. repeat split; [lra | lra | lia | intros; lra].
Qed.

(** A buffer of four bits and a fresh ledger. *)
Definition demo_world : world Q :=
  mk_world (mk_detector (replicate 4 false) false) stat_default None.

Lemma check_data_monotone_witness :
  exists w', check_data 0%Q 2%Q demo_world = Ok w' /\
    (runSeconds (w_stat demo_world) < runSeconds (w_stat w'))%Q.
Proof.
  destruct (check_data 0%Q 2%Q demo_world) as [w'|e] eqn:H; [|discriminate H].
  assert (Hle : (0 <= 2)%Q) by (vm_compute; discriminate).
  assert (Hlt : (0 < 2)%Q) by (vm_compute; reflexivity).
  exists w'. split; [done|].
  exact (proj2 (proj2 (proj2 (check_data_monotone 0%Q 2%Q demo_world w' Hle H))) Hlt).
Defined.

(** ** Binary64 *)

Section Binary64.
Import PrimFloat.
Local Open Scope float_scope.
Local Set Warnings "-inexact-float".

Definition float_world0 : world PrimFloat.float :=
  mk_world (mk_detector [] false) (mk_stat 0%float 0%float 0%Z 0.1%float 0%float) None.

(** C11: In binary64, as Python computes them, a checkpoint adds the
    rounded period [now - start_at] to [runSeconds] and the rounded
    exposure [float(len) * period] to [bitSeconds], each with one more
    rounding.  So checkpoints are not additive, as spec section 8 says they
    are: from [runSeconds = 0.1], checkpoints over periods 0.2 then 0.3
    leave [(0.1 + 0.2) + 0.3], one checkpoint over 0.5 leaves
    [0.1 + 0.5], and the two differ although [0.2 + 0.3 = 0.5] exactly
    in binary64. *)
Theorem check_data_float_not_additive :
  (forall (start_at now : float) (w : world float),
     exists w', check_data start_at now w = Ok w' /\
       runSeconds (w_stat w') = runSeconds (w_stat w) + (now - start_at) /\
       bitSeconds (w_stat w') =
         bitSeconds (w_stat w) + num_of_Z (len_bits (w_det w)) * (now - start_at)) /\
  PrimFloat.eqb (0.2 + 0.3)%float 0.5%float = true /\
  exists w1 w2 w',
    check_data 0%float 0.2%float float_world0 = Ok w1 /\ check_data 0%float 0.3%float w1 = Ok w2 /\
    check_data 0%float 0.5%float float_world0 = Ok w' /\
    runSeconds (w_stat w2) = (0.1 + 0.2) + 0.3 /\ runSeconds (w_stat w') = 0.1 + 0.5 /\
    PrimFloat.eqb (runSeconds (w_stat w2)) (runSeconds (w_stat w')) = false.
Proof.
  split; [intros sa n w; rewrite check_data_eq; eexists; repeat split|].
  split; [vm_compute; reflexivity|].
  do 3 eexists. split; [reflexivity|]. split; [reflexivity|].
  split; [reflexivity|]. split; [|split]; vm_compute; reflexivity.
Qed.

End Binary64.

End Statistics.
