(* ===== verification/StatFile.v ===== *)
(** * The [stat] dict as Python holds it ([StatFile])

    [Ledger] keeps the statistics as a record of five typed fields.  The
    program does not: [load_statistics] returns whatever [json.load]
    builds from [stat.json], and [check_data] updates that object with
    [stat[key] += x] and [stat[key] = x].  This file models the object
    as the Python value it is ([pyval]: the values [json.load] returns),
    with dict lookup ([KeyError]), item assignment, and Python's [+] and
    [/] on numbers ([TypeError] on anything else); it translates
    [load_statistics] and [check_data] statement by statement over it.

    The typed view [stat_of_dict] reads the five fields the way [TStat]
    declares them; the theorems show that the record model of [Ledger]
    is what the dict model computes whenever the file conforms to that
    view, and what the dict model does when it does not. *)

From S2P Require Import Prelude Arena Ledger.
From stdpp Require Import strings.
Import BitArena Statistics.

Local Open Scope string_scope.

Module StatFile.

Section Values.
Context {A : Type} `{PyNum A}.

(** The values [json.load] returns: [int], [float], [bool], [str],
    [None], [list] and [dict], the dict with its keys in insertion order. *)
Inductive pyval :=
| PyInt (z : Z)
| PyFloat (x : A)
| PyBool (b : bool)
| PyStr (s : string)
| PyNone
| PyList (l : list pyval)
| PyDict (kv : list (string * pyval)).

(** [stat.json]: absent, a well-formed JSON document, or a malformed one. *)
Inductive stat_file :=
| NoFile
| JsonFile (v : pyval)
| BadJson.

(** The numbers of Python: [bool] is a subclass of [int]. *)
Definition as_num (v : pyval) : option (Z + A) :=
  match v with
  | PyInt z => Some (inl z)
  | PyBool b => Some (inl (Z.b2z b))
  | PyFloat x => Some (inr x)
  | _ => None
  end.

(** [float(x)] of a number. *)
Definition to_float (n : Z + A) : A :=
  match n with inl z => num_of_Z z | inr x => x end.

(** [x + y]: [int + int] is an [int], a [float] on either side makes a
    [float]; strings and lists concatenate; anything else is a
    [TypeError]. *)
Definition py_add (x y : pyval) : result pyval :=
  match x, y with
  | PyStr a, PyStr b => Ok (PyStr (a +:+ b))
  | PyList a, PyList b => Ok (PyList (a ++ b))
  | _, _ =>
      match as_num x, as_num y with
      | Some (inl a), Some (inl b) => Ok (PyInt (a + b))
      | Some a, Some b => Ok (PyFloat (num_add (to_float a) (to_float b)))
      | _, _ => Err TypeError
      end
  end.

(** [x / n] for a non-zero [int] constant [n]: true division gives a
    [float]. *)
Definition py_truediv_int (x : pyval) (n : Z) : result pyval :=
  match as_num x with
  | Some a => Ok (PyFloat (num_div (to_float a) (num_of_Z n)))
  | None => Err TypeError
  end.

Fixpoint assoc_get (k : string) (kv : list (string * pyval)) : option pyval :=
  match kv with
  | [] => None
  | (k', v) :: kv' => if decide (k = k') then Some v else assoc_get k kv'
  end.

(** Assigning a key keeps its place in the dict; a new key goes last. *)
Fixpoint assoc_set (k : string) (v : pyval) (kv : list (string * pyval))
    : list (string * pyval) :=
  match kv with
  | [] => [(k, v)]
  | (k', v') :: kv' =>
      if decide (k = k') then (k, v) :: kv' else (k', v') :: assoc_set k v kv'
  end.

(** [o[k]]: a [KeyError] on a dict without [k], a [TypeError] on a value
    that is not a dict ([json.load] may return a list or a number). *)
Definition py_getitem (o : pyval) (k : string) : result pyval :=
  match o with
  | PyDict kv => match assoc_get k kv with Some v => Ok v | None => Err KeyError end
  | _ => Err TypeError
  end.

(** [o[k] = v]. *)
Definition py_setitem (o : pyval) (k : string) (v : pyval) : result pyval :=
  match o with
  | PyDict kv => Ok (PyDict (assoc_set k v kv))
  | _ => Err TypeError
  end.

(** [o[k] += x]. *)
Definition py_iadd_item (o : pyval) (k : string) (x : pyval) : result pyval :=
  let* v := py_getitem o k in
  let* v' := py_add v x in
  py_setitem o k v'.

(** The dict [load_statistics] builds when [stat.json] is absent. *)
Definition stat_default_dict : pyval :=
  PyDict [("bitSeconds", PyInt 0); ("GbitHours", PyInt 0); ("SEUCases", PyInt 0);
          ("runSeconds", PyInt 0); ("runHours", PyInt 0)].

(** [load_statistics]: [json.load] of the file; only [FileNotFoundError]
    is caught, a malformed file raises [JSONDecodeError]. *)
Definition load_statistics_dict (f : stat_file) : result pyval :=
  match f with
  | NoFile => Ok stat_default_dict
  | JsonFile v => Ok v
  | BadJson => Err ValueError
  end.

(** [dump_statistics]: [json.dump] writes the dict back. *)
Definition dump_statistics_dict (stat : pyval) : stat_file := JsonFile stat.

(** [check_data(stat, start_at)] on the detector [d], statement by
    statement; it returns the detector, the [stat] object and what
    [dump_statistics] leaves in [stat.json]. *)
Definition check_data_dict (start_at now : A) (d : detector) (stat : pyval)
    : result (detector * pyval * stat_file) :=
  let period := num_sub now start_at in
  let* stat := py_iadd_item stat "bitSeconds"
                 (PyFloat (num_mul (num_of_Z (len_bits d)) period)) in
  let* bs := py_getitem stat "bitSeconds" in
  let* g1 := py_truediv_int bs 3600 in
  let* g := py_truediv_int g1 (10 ^ 9) in
  let* stat := py_setitem stat "GbitHours" g in
  let* stat := py_iadd_item stat "runSeconds" (PyFloat period) in
  let* rs := py_getitem stat "runSeconds" in
  let* rh := py_truediv_int rs 3600 in
  let* stat := py_setitem stat "runHours" rh in
  let* found :=
    match scan (data d) with
    | Ok index => Ok true
    | Err ValueError => Ok false
    | Err e => Err e
    end in
  let* ds :=
    if found then
      let* stat := py_iadd_item stat "SEUCases" (PyInt 1) in
      Ok (mk_detector (data d) true, stat)
    else Ok (d, stat) in
  Ok (ds.1, ds.2, dump_statistics_dict ds.2).

(** ** The typed view of [TStat] *)

(** A [float] field: an [int] is accepted, as the type checker does. *)
Definition float_field (v : pyval) : result A :=
  match v with
  | PyInt z => Ok (num_of_Z z)
  | PyFloat x => Ok x
  | _ => Err TypeError
  end.

Definition int_field (v : pyval) : result Z :=
  match v with PyInt z => Ok z | _ => Err TypeError end.

(** The record a dict conforming to [TStat] stands for. *)
Definition stat_of_dict (v : pyval) : result (TStat A) :=
  let* bs := py_getitem v "bitSeconds" in let* bs := float_field bs in
  let* g := py_getitem v "GbitHours" in let* g := float_field g in
  let* c := py_getitem v "SEUCases" in let* c := int_field c in
  let* rs := py_getitem v "runSeconds" in let* rs := float_field rs in
  let* rh := py_getitem v "runHours" in let* rh := float_field rh in
  Ok (mk_stat bs g c rs rh).

(** The five fields hold exactly the Python types [TStat] declares:
    [float] for the four measures, [int] for [SEUCases]. *)
Definition tstat_typed (v : pyval) : bool :=
  match v with
  | PyDict kv =>
      forallb (fun k => match assoc_get k kv with Some (PyFloat _) => true | _ => false end)
        ["bitSeconds"; "GbitHours"; "runSeconds"; "runHours"] &&
      match assoc_get "SEUCases" kv with Some (PyInt _) => true | _ => false end
  | _ => false
  end.

End Values.

Arguments pyval A : clear implicits.
Arguments stat_file A : clear implicits.

(** ** Lemmas *)

Section Lemmas.
Context {A : Type} `{PyNum A}.
Implicit Types (kv : list (string * pyval A)) (v : pyval A).

Lemma assoc_get_set_eq (k : string) v kv : assoc_get k (assoc_set k v kv) = Some v.
Proof.
  induction kv as [|[k' v'] kv IH]; simpl; [by rewrite decide_True|].
  case_decide; simpl; [by rewrite decide_True|]. by rewrite decide_False.
Qed.

Lemma assoc_get_set_ne (k k' : string) v kv :
  k <> k' -> assoc_get k (assoc_set k' v kv) = assoc_get k kv.
Proof.
  intros Hne. induction kv as [|[k'' v'] kv IH]; simpl.
  - by rewrite decide_False.
  - case_decide; subst; simpl.
    + by rewrite !decide_False.
    + case_decide; [done|]. done.
Qed.

Lemma float_field_add v (x y : A) :
  float_field v = Ok x -> py_add v (PyFloat y) = Ok (PyFloat (num_add x y)).
Proof. destruct v; simpl; by intros [= <-]. Qed.

Lemma float_field_div v (x : A) (n : Z) :
  float_field v = Ok x -> py_truediv_int v n = Ok (PyFloat (num_div x (num_of_Z n))).
Proof. destruct v; simpl; by intros [= <-]. Qed.

Lemma int_field_add v (z : Z) :
  int_field v = Ok z -> py_add v (PyInt 1) = Ok (PyInt (z + 1)).
Proof. destruct v; simpl; by intros [= <-]. Qed.

Lemma py_getitem_dict kv (k : string) v :
  py_getitem (PyDict kv) k = Ok v <-> assoc_get k kv = Some v.
Proof. simpl. destruct (assoc_get k kv); split; congruence. Qed.

(** The five fields a dict conforming to [TStat] holds. *)
Lemma stat_of_dict_Ok v (s : TStat A) :
  stat_of_dict v = Ok s ->
  exists kv vb vg vc vr vh, v = PyDict kv /\
    assoc_get "bitSeconds" kv = Some vb /\ float_field vb = Ok (bitSeconds s) /\
    assoc_get "GbitHours" kv = Some vg /\ float_field vg = Ok (GbitHours s) /\
    assoc_get "SEUCases" kv = Some vc /\ int_field vc = Ok (SEUCases s) /\
    assoc_get "runSeconds" kv = Some vr /\ float_field vr = Ok (runSeconds s) /\
    assoc_get "runHours" kv = Some vh /\ float_field vh = Ok (runHours s).
Proof.
  unfold stat_of_dict. destruct v as [| | | | | |kv]; try discriminate. simpl.
  repeat match goal with
  | |- match ?m with Ok _ => _ | Err _ => _ end = _ -> _ =>
      let E := fresh "E" in destruct m eqn:E; [|discriminate]
  end.
  intros [= <-]. simpl.
  repeat match goal with
  | E : match assoc_get ?k kv with Some _ => _ | None => _ end = Ok _ |- _ =>
      let F := fresh "F" in destruct (assoc_get k kv) eqn:F; [injection E as <-|discriminate]
  end.
  eexists _, _, _, _, _, _. eauto 20.
Qed.

End Lemmas.

Create Rewrite HintDb pydict.
#[export] Hint Rewrite @assoc_get_set_eq : pydict.
#[export] Hint Rewrite @assoc_get_set_ne using discriminate : pydict.

(** Runs the dict operations of a statement sequence on a dict whose
    fields the hypotheses give. *)
Ltac dict_eval :=
  repeat first
    [ progress (unfold py_iadd_item, py_getitem, py_setitem, py_truediv_int;
                cbn [as_num to_float float_field int_field])
    | progress autorewrite with pydict
    | match goal with
      | H : assoc_get ?k ?kv = _ |- context [assoc_get ?k ?kv] => rewrite H
      | H : float_field ?v = Ok _ |- context [py_add ?v (PyFloat _)] =>
          rewrite (float_field_add _ _ _ H)
      | H : int_field ?v = Ok _ |- context [py_add ?v (PyInt 1)] =>
          rewrite (int_field_add _ _ H)
      | H : float_field ?v = Ok _ |- context [float_field ?v] => rewrite H
      | H : int_field ?v = Ok _ |- context [int_field ?v] => rewrite H
      end ].

Section Checkpoint.
Context {A : Type} `{PyNum A}.

(** On a dict that conforms to [TStat], [check_data] succeeds, leaves a
    conforming dict with the declared types, and computes what the record
    model computes. *)
Lemma check_data_dict_conforming (start_at now : A) (d : detector) (st : pyval A)
    (s : TStat A) (file : option (TStat A)) :
  stat_of_dict st = Ok s ->
  exists d' st' s', check_data_dict start_at now d st = Ok (d', st', dump_statistics_dict st') /\
    stat_of_dict st' = Ok s' /\ tstat_typed st' = true /\
    check_data start_at now (mk_world d s file) = Ok (mk_world d' s' (dump_statistics s')).
Proof.
  intros Hs.
  destruct (stat_of_dict_Ok _ _ Hs)
    as (kv & vb & vg & vc & vr & vh & -> & Hb & Fb & Hg & Fg & Hc & Fc & Hr & Fr & Hh & Fh).
  rewrite check_data_eq. cbn [w_det w_stat w_file]. unfold check_data_dict.
  dict_eval. rewrite scan_found.
  destruct (all_zero (data d)); cbn; dict_eval; do 3 eexists; (split; [reflexivity|]);
    unfold stat_of_dict, tstat_typed; cbn [forallb]; dict_eval; repeat split.
  destruct vc; by try discriminate.
Qed.

(** The fields [check_data] reads first, when present as numbers. *)
Definition measures_present (kv : list (string * pyval A)) : Prop :=
  exists vb xb vr xr,
    assoc_get "bitSeconds" kv = Some vb /\ float_field vb = Ok xb /\
    assoc_get "runSeconds" kv = Some vr /\ float_field vr = Ok xr.

End Checkpoint.

(** ** Theorems *)

Section Theorems.
Context {A : Type} `{PyNum A}.

(** C21: Refinement of the record model by the dict model.  Whenever
    the [stat] object conforms to [TStat] (the five keys, four numbers and
    an [int]), the statement-by-statement [check_data] on the dict
    succeeds, and its typed view is the record [Ledger]'s [check_data]
    computes, with the same detector, in exact and in binary64
    arithmetic alike. *)
Theorem check_data_dict_refines (start_at now : A) (d : detector) (st : pyval A)
    (s : TStat A) (file : option (TStat A)) :
  stat_of_dict st = Ok s ->
  exists d' st' s', check_data_dict start_at now d st = Ok (d', st', dump_statistics_dict st') /\
    stat_of_dict st' = Ok s' /\
    check_data start_at now (mk_world d s file) = Ok (mk_world d' s' (dump_statistics s')).
Proof.
  intros Hs.
  destruct (check_data_dict_conforming start_at now d st s file Hs)
    as (d' & st' & s' & ? & ? & _ & ?).
  by exists d', st', s'.
Qed.

(** C22: [TStat]'s types after a checkpoint.  Whatever numbers a
    conforming [stat.json] holds ([load_statistics] itself starts from
    [int] zeros), after one [check_data] the four measures are [float]s
    and [SEUCases] is an [int], as [TStat] declares. *)
Theorem check_data_dict_typed (start_at now : A) (d d' : detector) (st st' : pyval A)
    (f' : stat_file A)
    (s : TStat A) :
  stat_of_dict st = Ok s -> check_data_dict start_at now d st = Ok (d', st', f') ->
  tstat_typed st' = true.
Proof.
  intros Hs Hc.
  destruct (check_data_dict_conforming start_at now d st s None Hs)
    as (d1 & st1 & s1 & Hc1 & _ & Ht & _).
  rewrite Hc in Hc1. by injection Hc1 as -> -> ->.
Qed.

(** C23: A [stat.json] without [bitSeconds], or with it but without
    [runSeconds], makes every checkpoint raise [KeyError], whatever the
    buffer holds: the process ends at its first data check, and the
    file is never rewritten. *)
Theorem check_data_dict_missing_measure (start_at now : A) (d : detector)
    (kv : list (string * pyval A)) :
  assoc_get "bitSeconds" kv = None \/
  ((exists vb xb, assoc_get "bitSeconds" kv = Some vb /\ float_field vb = Ok xb) /\
   assoc_get "runSeconds" kv = None) ->
  check_data_dict start_at now d (PyDict kv) = Err KeyError.
Proof.
  unfold check_data_dict. by intros [Hb | ((vb & xb & Hb & Fb) & Hr)]; dict_eval.
Qed.

(** C24: A [stat.json] with its measures but without [SEUCases] works
    until the first upset: a checkpoint of a clear buffer succeeds, and
    the checkpoint that finds a set bit raises [KeyError] after the scan
    and before [dump_statistics], so that upset is never recorded. *)
Theorem check_data_dict_missing_count (start_at now : A) (d : detector)
    (kv : list (string * pyval A)) :
  measures_present kv -> assoc_get "SEUCases" kv = None ->
  (all_zero (data d) = true -> exists r, check_data_dict start_at now d (PyDict kv) = Ok r) /\
  (all_zero (data d) = false -> check_data_dict start_at now d (PyDict kv) = Err KeyError).
Proof.
  intros (vb & xb & vr & xr & Hb & Fb & Hr & Fr) Hc.
  unfold check_data_dict. dict_eval. rewrite scan_found.
  split; intros Hz; rewrite Hz; cbn; dict_eval; [by eexists|done].
Qed.

End Theorems.

(** ** Concrete dicts *)

(** A file written by hand with the measures but no upset count. *)
Definition demo_partial : list (string * pyval Q) :=
  [("bitSeconds", PyFloat 1%Q); ("runSeconds", PyInt 2)].

Lemma stat_of_dict_default : stat_of_dict (A := Q) stat_default_dict = Ok stat_default.
Proof. reflexivity. Qed.

Lemma check_data_dict_refines_witness :
  stat_of_dict (A := Q) stat_default_dict = Ok stat_default /\
  exists d' st' s', check_data_dict 0%Q 10%Q (mk_detector [false; true] false)
      stat_default_dict = Ok (d', st', dump_statistics_dict st') /\ stat_of_dict st' = Ok s' /\
    check_data 0%Q 10%Q (mk_world (mk_detector [false; true] false) stat_default None) =
      Ok (mk_world d' s' (dump_statistics s')).
Proof.
  split; [exact stat_of_dict_default|].
  exact (check_data_dict_refines 0%Q 10%Q _ _ _ None stat_of_dict_default).
Defined.

(** The dict one checkpoint of ten seconds over a clear 1-bit buffer
    leaves when [stat.json] was absent: the [int] zeros became [float]s. *)
Definition demo_checked : pyval Q :=
  PyDict [("bitSeconds", PyFloat (0 + 1 * (10 - 0))%Q);
          ("GbitHours", PyFloat ((0 + 1 * (10 - 0)) / 3600 / inject_Z (10 ^ 9))%Q);
          ("SEUCases", PyInt 0); ("runSeconds", PyFloat (0 + (10 - 0))%Q);
          ("runHours", PyFloat ((0 + (10 - 0)) / 3600)%Q)].

Lemma check_data_dict_typed_witness :
  stat_of_dict (A := Q) stat_default_dict = Ok stat_default /\
  tstat_typed (A := Q) stat_default_dict = false /\
  check_data_dict 0%Q 10%Q (mk_detector [false] false) stat_default_dict =
    Ok (mk_detector [false] false, demo_checked, dump_statistics_dict demo_checked) /\
  tstat_typed demo_checked = true.
Proof.
  assert (Hc : check_data_dict 0%Q 10%Q (mk_detector [false] false) stat_default_dict =
    Ok (mk_detector [false] false, demo_checked, dump_statistics_dict demo_checked))
    by reflexivity.
  split; [exact stat_of_dict_default|]. split; [reflexivity|]. split; [exact Hc|].
  exact (check_data_dict_typed 0%Q 10%Q _ _ _ _ _ _ stat_of_dict_default Hc).
Defined.

Lemma check_data_dict_missing_measure_witness :
  check_data_dict 0%Q 10%Q (mk_detector [false] false)
    (PyDict [("bitSeconds", PyFloat 1%Q)]) = Err KeyError.
Proof.
  apply check_data_dict_missing_measure. right.
  split; [|reflexivity]. exists (PyFloat 1%Q), 1%Q. split; reflexivity.
Defined.

Lemma check_data_dict_missing_count_witness :
  measures_present demo_partial /\ assoc_get "SEUCases" demo_partial = None /\
  check_data_dict 0%Q 10%Q (mk_detector [false; true] false) (PyDict demo_partial) =
    Err KeyError.
Proof.
  assert (Hm : measures_present demo_partial).
  { exists (PyFloat 1%Q), 1%Q, (PyInt 2), 2%Q. repeat split. }
  assert (Hc : assoc_get "SEUCases" demo_partial = None) by reflexivity.
  split; [exact Hm|]. split; [exact Hc|].
  apply (proj2 (check_data_dict_missing_count 0%Q 10%Q _ _ Hm Hc)). reflexivity.
Defined.

End StatFile.
