(* ===== verification/Scheduler.v ===== *)
(** * The scan scheduler ([Scheduler])

    [SEUDetector.run] and [SEUDetector.run_once] as a machine whose
    program counter names the statements of [run_once], driven by the
    environment: the clock advances, the free-memory figure changes,
    particles flip bits, the operator interrupts, or the program executes
    its next statement.  Each statement reads the clock once; the clock
    may advance between any two statements, and a sleeping program wakes
    once the clock has reached its wake-up time. *)

From S2P Require Import Prelude Arena Sizing Ledger.
Import BitArena SizingPolicy Statistics.

Module Scheduler.

Definition CHECK_MEMORY_EVERY : Q := 1.
Definition CHECK_DATA_EVERY : Q := 10.

(** The statement the program executes next. *)
Inductive pc :=
| PC_Run            (** [stat = self.load_statistics()] *)
| PC_InitAlloc      (** [self.update_array(self.get_memory_to_use() * 8)] *)
| PC_RunOnce        (** [start_at = last_check_mem = last_check_data = time.time()] *)
| PC_SleepMem       (** first argument of [min]: [CHECK_MEMORY_EVERY-(time.time()-last_check_mem)] *)
| PC_SleepData      (** second argument, then [time.sleep(sleep_for)] *)
| PC_Sleeping (wake : Q)
| PC_MemCheck       (** [if time.time() - last_check_mem >= CHECK_MEMORY_EVERY: ...] *)
| PC_DataCheck      (** [if time.time() - last_check_data >= CHECK_DATA_EVERY: ...] *)
| PC_Crashed (e : py_exc)  (** an exception reached [__main__]: logged, exit *)
| PC_Exited.               (** [KeyboardInterrupt]: graceful exit *)

Record sched := mk_sched {
  s_world : world Q;     (** [self], the [stat] dict, [stat.json] *)
  s_now : Q;             (** the wall clock *)
  s_free : N;            (** what [psutil.virtual_memory().free] reports *)
  s_start_at : Q;
  s_last_mem : Q;
  s_last_data : Q;
  s_sleep_mem : Q;       (** the first argument of [min], once evaluated *)
  s_pc : pc
}.

Inductive input :=
| Tick (dt : Q)        (** the clock advances by [dt] *)
| SetFree (n : N)      (** the free memory becomes [n] bytes *)
| Upset (i : nat)      (** a particle flips bit [i] of the buffer *)
| Interrupt            (** the operator presses Ctrl-C *)
| Go.                  (** the program executes its next statement *)

Definition s_det (s : sched) : detector := w_det (s_world s).

(** Python's [min(a, b)]: [b] if [b < a], else [a]. *)
Definition py_min (a b : Q) : Q := if Qle_bool a b then a else b.

Definition set_pc (p : pc) (s : sched) : sched :=
  mk_sched (s_world s) (s_now s) (s_free s) (s_start_at s) (s_last_mem s)
    (s_last_data s) (s_sleep_mem s) p.

Definition set_world (w : world Q) (p : pc) (s : sched) : sched :=
  mk_sched w (s_now s) (s_free s) (s_start_at s) (s_last_mem s)
    (s_last_data s) (s_sleep_mem s) p.

Definition set_det (d : detector) (w : world Q) : world Q :=
  mk_world d (w_stat w) (w_file w).

Section Machine.

(** The content of freshly allocated memory. *)
Variable junk : nat -> bool.

(** Whether the system grants an allocation of this many bits now; a
    refusal makes [bitarray(use_bits)] raise [MemoryError]. *)
Variable grant : sched -> Z -> bool.

(** [self.update_array(use_bits)]; [return] goes back to [run]'s loop.
    [bitarray(use_bits)] raises [ValueError] for a negative size and
    [MemoryError] when the memory is not granted. *)
Definition realloc (use_bits : Z) (w : world Q) (s : sched) : sched :=
  match update_array junk use_bits (w_det w) with
  | Ok d =>
      if grant s use_bits then set_world (set_det d w) PC_RunOnce s
      else set_world w (PC_Crashed MemoryError) s
  | Err e => set_world w (PC_Crashed e) s
  end.

(** The memory-check branch of [run_once]. *)
Definition mem_check (s : sched) : sched :=
  if Qle_bool CHECK_MEMORY_EVERY (s_now s - s_last_mem s) then
    let w := s_world s in
    let use_bytes := get_memory_to_use (Z.of_N (s_free s)) (w_det w) in
    let use_bits := (use_bytes * 8)%Z in
    let (should, d1) := should_update_array (w_det w) use_bits in
    let w1 := set_det d1 w in
    if (should =? UPDATE_NO_CHECK)%Z then realloc use_bits w1 s
    else if (should =? UPDATE_WITH_CHECK)%Z then
      match check_data (s_start_at s) (s_now s) w1 with
      | Ok w2 => realloc use_bits w2 s
      | Err e => set_world w1 (PC_Crashed e) s
      end
    else if (should =? NO_UPDATE)%Z then
      mk_sched w1 (s_now s) (s_free s) (s_start_at s) (s_now s)
        (s_last_data s) (s_sleep_mem s) PC_DataCheck
    else set_world w1 (PC_Crashed ValueError) s
  else set_pc PC_DataCheck s.

(** The data-check branch of [run_once]. *)
Definition data_check (s : sched) : sched :=
  if Qle_bool CHECK_DATA_EVERY (s_now s - s_last_data s) then
    match check_data (s_start_at s) (s_now s) (s_world s) with
    | Ok w => set_world w PC_RunOnce s
    | Err e => set_pc (PC_Crashed e) s
    end
  else set_pc PC_SleepMem s.

(** The program executes the statement at its program counter. *)
Definition exec (s : sched) : sched :=
  match s_pc s with
  | PC_Run =>
      let w := s_world s in
      set_world (mk_world (w_det w) (load_statistics (w_file w)) (w_file w)) PC_InitAlloc s
  | PC_InitAlloc =>
      realloc (get_memory_to_use (Z.of_N (s_free s)) (s_det s) * 8) (s_world s) s
  | PC_RunOnce =>
      mk_sched (s_world s) (s_now s) (s_free s) (s_now s) (s_now s) (s_now s)
        (s_sleep_mem s) PC_SleepMem
  | PC_SleepMem =>
      mk_sched (s_world s) (s_now s) (s_free s) (s_start_at s) (s_last_mem s)
        (s_last_data s) (CHECK_MEMORY_EVERY - (s_now s - s_last_mem s)) PC_SleepData
  | PC_SleepData =>
      let sleep_for := py_min (s_sleep_mem s)
                         (CHECK_DATA_EVERY - (s_now s - s_last_data s)) in
      if Qle_bool 0 sleep_for then set_pc (PC_Sleeping (s_now s + sleep_for)) s
      else set_pc (PC_Crashed ValueError) s
  | PC_Sleeping wake =>
      if Qle_bool wake (s_now s) then set_pc PC_MemCheck s else s
  | PC_MemCheck => mem_check s
  | PC_DataCheck => data_check s
  | PC_Crashed _ | PC_Exited => s
  end.

(** One move of the environment or of the program. *)
Definition step (s : sched) (i : input) : sched :=
  match s_pc s with
  | PC_Crashed _ | PC_Exited => s
  | _ =>
    match i with
    | Tick dt =>
        if Qle_bool 0 dt then
          mk_sched (s_world s) (s_now s + dt) (s_free s) (s_start_at s)
            (s_last_mem s) (s_last_data s) (s_sleep_mem s) (s_pc s)
        else s
    | SetFree n =>
        mk_sched (s_world s) (s_now s) n (s_start_at s) (s_last_mem s)
          (s_last_data s) (s_sleep_mem s) (s_pc s)
    | Upset k =>
        let w := s_world s in
        let d := w_det w in
        set_world (set_det (mk_detector (flip_bit k (data d)) (force_reinit d)) w)
          (s_pc s) s
    | Interrupt => set_pc PC_Exited s
    | Go => exec s
    end
  end.

Definition run_inputs (s : sched) (l : list input) : sched := fold_left step l s.

End Machine.

(** The process at start-up: a fresh [SEUDetector], [stat.json] as
    found, and the clock and free memory of the moment. *)
Definition init (file : option (TStat Q)) (free : N) (now : Q) : sched :=
  mk_sched (mk_world detector_init stat_default file) now free now now now 0 PC_Run.

(** States the process can reach. *)
Inductive reachable (junk : nat -> bool) (grant : sched -> Z -> bool) : sched -> Prop :=
| reach_init file free now : reachable junk grant (init file free now)
| reach_step s i : reachable junk grant s -> reachable junk grant (step junk grant s i).

(** ** Lemmas *)

Lemma run_inputs_app (junk : nat -> bool) (grant : sched -> Z -> bool) (s : sched) (l1 l2 : list input) :
  run_inputs junk grant s (l1 ++ l2) = run_inputs junk grant (run_inputs junk grant s l1) l2.
Proof. apply fold_left_app. Qed.

Lemma reachable_run (junk : nat -> bool) (grant : sched -> Z -> bool) (s : sched) (l : list input) :
  reachable junk grant s -> reachable junk grant (run_inputs junk grant s l).
Proof.
  revert s. induction l as [|i l IH]; intros s Hs; simpl; [done|].
  apply IH. by constructor.
Qed.

Lemma py_min_cases (a b : Q) : py_min a b = a \/ py_min a b = b.
Proof. unfold py_min. destruct (Qle_bool a b); auto. Qed.

Lemma py_min_le (a b : Q) : (py_min a b <= a)%Q /\ (py_min a b <= b)%Q.
Proof.
  unfold py_min. destruct (Qle_bool a b) eqn:E; qle_bool_hyps; split; lra.
Qed.

(** Unfolds one move of the machine and splits on every test of the code. *)
Ltac step_cases :=
  unfold step, exec, mem_check, data_check, realloc, set_pc, set_world, set_det, s_det in *;
  simpl in *; repeat (case_match; simpl in *); simplify_eq; qle_bool_hyps;
  repeat match goal with
  | H : should_update_array ?d ?u = (_, ?d1) |- _ =>
      let E := fresh in let C := fresh in
      pose proof (should_update_array_snd d u) as E;
      pose proof (should_update_array_code d u) as C;
      rewrite H in E, C; simpl in E, C; subst d1; clear H
  | H : check_data _ _ _ = Err _ |- _ => rewrite check_data_eq in H; discriminate
  | H : update_array _ _ _ = Err _ |- _ => apply update_array_Err in H as [? ?]
  | H : (get_memory_to_use (Z.of_N ?f) ?d * 8 < 0)%Z |- _ =>
      pose proof (get_memory_to_use_nonneg f d); exfalso; lia
  | H : (py_min ?a ?b < _)%Q |- _ =>
      let E := fresh in destruct (py_min_cases a b) as [E|E]; rewrite E in H; clear E
  | |- context [py_min ?a ?b] => destruct (py_min_cases a b) as [-> | ->]
  end;
  unfold CHECK_MEMORY_EVERY, CHECK_DATA_EVERY in *.

(** While [force_reinit] is set, the program is in the first iteration
    of a [run_once] whose memory deadline is due by the time it wakes,
    and never at the data check. *)
Definition force_inv (s : sched) : Prop :=
  force_reinit (s_det s) = true ->
  match s_pc s with
  | PC_RunOnce | PC_Crashed _ | PC_Exited => True
  | PC_SleepMem => s_last_data s = s_last_mem s /\ (s_last_mem s <= s_now s)%Q
  | PC_SleepData =>
      s_last_data s = s_last_mem s /\
      (CHECK_MEMORY_EVERY - (s_now s - s_last_mem s) <= s_sleep_mem s)%Q
  | PC_Sleeping wake => (s_last_mem s + CHECK_MEMORY_EVERY <= wake)%Q
  | PC_MemCheck => (CHECK_MEMORY_EVERY <= s_now s - s_last_mem s)%Q
  | PC_Run | PC_InitAlloc | PC_DataCheck => False
  end.

Lemma force_inv_step (junk : nat -> bool) (grant : sched -> Z -> bool) (s : sched) (i : input) :
  force_inv s -> force_inv (step junk grant s i).
Proof.
  destruct s as [[[a f] st fl] now free sa lm ld sm p]. unfold force_inv, s_det.
  intros Hinv. step_cases; intros Hf; simpl in *; subst; try done;
    try (specialize (Hinv eq_refl); naive_solver lra).
Qed.

(** The machine's invariants hold on every reachable state. *)
Lemma reachable_inv (junk : nat -> bool) (grant : sched -> Z -> bool) (P : sched -> Prop) :
  (forall file free now, P (init file free now)) ->
  (forall s i, P s -> P (step junk grant s i)) ->
  forall s, reachable junk grant s -> P s.
Proof. intros Hi Hs s Hr. induction Hr; auto. Qed.

(** ** An environment whose clock only advances while the program sleeps *)

Definition is_sleeping (p : pc) : bool :=
  match p with PC_Sleeping _ => true | _ => false end.

Definition ideal_input (s : sched) (i : input) : bool :=
  match i with
  | Tick _ => is_sleeping (s_pc s)
  | _ => true
  end.

Fixpoint ideal_run (junk : nat -> bool) (grant : sched -> Z -> bool) (s : sched) (l : list input) : bool :=
  match l with
  | [] => true
  | i :: l' => ideal_input s i && ideal_run junk grant (step junk grant s i) l'
  end.

(** Between the two deadline tests and the computation of [sleep_for],
    neither deadline has passed; the only exception is a refused
    allocation. *)
Definition safe_inv (s : sched) : Prop :=
  match s_pc s with
  | PC_Crashed e => e = MemoryError
  | PC_SleepMem =>
      (s_now s - s_last_mem s < CHECK_MEMORY_EVERY)%Q /\
      (s_now s - s_last_data s < CHECK_DATA_EVERY)%Q
  | PC_SleepData =>
      (0 < s_sleep_mem s)%Q /\ (s_now s - s_last_data s < CHECK_DATA_EVERY)%Q
  | PC_DataCheck => (s_now s - s_last_mem s < CHECK_MEMORY_EVERY)%Q
  | _ => True
  end.

Lemma safe_inv_step (junk : nat -> bool) (grant : sched -> Z -> bool) (s : sched) (i : input) :
  safe_inv s -> ideal_input s i = true -> safe_inv (step junk grant s i).
Proof.
  destruct s as [[d st fl] now free sa lm ld sm p]. unfold safe_inv, ideal_input.
  intros Hinv Hi. step_cases; try done; naive_solver lra.
Qed.

Lemma safe_inv_run (junk : nat -> bool) (grant : sched -> Z -> bool) (s : sched) (l : list input) :
  safe_inv s -> ideal_run junk grant s l = true -> safe_inv (run_inputs junk grant s l).
Proof.
  revert s. induction l as [|i l IH]; intros s Hs Hl; simpl in *; [done|].
  apply andb_true_iff in Hl as [Hi Hl]. apply IH; [|done]. by apply safe_inv_step.
Qed.

(** A [MemoryError] comes only from an allocation the system refused. *)
Lemma step_oom (junk : nat -> bool) (grant : sched -> Z -> bool) (s : sched) (i : input) :
  s_pc (step junk grant s i) = PC_Crashed MemoryError ->
  s_pc s = PC_Crashed MemoryError \/ exists u, grant s u = false.
Proof.
  destruct s as [[d st fl] now free sa lm ld sm p].
  intros H. step_cases; try discriminate; eauto.
Qed.

Lemma run_no_oom (junk : nat -> bool) (grant : sched -> Z -> bool) (s : sched) (l : list input) :
  (forall s' u, grant s' u = true) -> s_pc s <> PC_Crashed MemoryError ->
  s_pc (run_inputs junk grant s l) <> PC_Crashed MemoryError.
Proof.
  intros Hg. revert s. induction l as [|i l IH]; intros s Hs; simpl; [done|].
  apply IH. intros H. destruct (step_oom junk grant s i H) as [?|[u Hu]]; [done|].
  by rewrite Hg in Hu.
Qed.

(** ** Runs without faults *)

Definition no_upset (i : input) : bool :=
  match i with Upset _ => false | _ => true end.

(** The buffer is all zero and the upset count, on disk and in memory,
    is [c]. *)
Definition clean_inv (c : Z) (s : sched) : Prop :=
  all_zero (data (s_det s)) = true /\
  SEUCases (load_statistics (w_file (s_world s))) = c /\
  (s_pc s = PC_Run \/ s_pc s = PC_Exited \/ SEUCases (w_stat (s_world s)) = c).

Lemma clean_inv_step (junk : nat -> bool) (grant : sched -> Z -> bool) (c : Z) (s : sched) (i : input) :
  clean_inv c s -> no_upset i = true -> clean_inv c (step junk grant s i).
Proof.
  destruct s as [[[a f] st fl] now free sa lm ld sm p]. unfold clean_inv.
  intros (Hz & Hf & Hs) Hi. step_cases;
    repeat match goal with
    | H : check_data _ _ _ = Ok _ |- _ => rewrite check_data_eq in H; injection H as <-
    | H : update_array _ _ _ = Ok _ |- _ =>
        pose proof (update_array_zero _ _ _ _ H); clear H
    end;
    simpl in *; rewrite ?Hz; simpl; naive_solver.
Qed.

Lemma clean_inv_run (junk : nat -> bool) (grant : sched -> Z -> bool) (c : Z) (s : sched) (l : list input) :
  clean_inv c s -> forallb no_upset l = true -> clean_inv c (run_inputs junk grant s l).
Proof.
  revert s. induction l as [|i l IH]; intros s Hs Hl; simpl in *; [done|].
  apply andb_true_iff in Hl as [Hi Hl]. apply IH; [|done]. by apply clean_inv_step.
Qed.

(** ** The buffer's type *)

(** [self.data] holds whole bytes: every allocation asks for
    [use_bytes * 8] bits, and a flipped bit keeps the length. *)
Definition whole_bytes (s : sched) : Prop := (len_bits (s_det s) mod 8 = 0)%Z.

Lemma whole_bytes_step (junk : nat -> bool) (grant : sched -> Z -> bool) (s : sched) (i : input) :
  whole_bytes s -> whole_bytes (step junk grant s i).
Proof.
  destruct s as [[d st fl] now free sa lm ld sm p]. unfold whole_bytes.
  intros Hinv. step_cases;
    repeat match goal with
    | H : check_data _ _ _ = Ok _ |- _ => rewrite check_data_eq in H; injection H as <-
    | H : update_array _ _ _ = Ok _ |- _ => apply update_array_len in H
    end;
    simpl in *; subst; rewrite ?len_bits_flip_bit; try case_match; simpl in *;
    repeat match goal with H : len_bits _ = _ |- _ => rewrite H; clear H end;
    rewrite ?Z_mod_mult; done.
Qed.

(** ** Concrete runs *)

Definition demo_junk : nat -> bool := fun _ => true.

(** The system grants every allocation. *)
Definition demo_grant : sched -> Z -> bool := fun _ _ => true.

(** 100 bytes free at start-up, at time 0, no [stat.json]. *)
Definition demo_start : sched := init None 100 0.

(** Load, allocate 600 bits (75 bytes: the probe then reports 25 bytes
    free), start a period. *)
Definition demo_boot : list input := [Go; Go; SetFree 25; Go].

(** One iteration of [run_once] up to its data check, sleeping [dt]:
    compute [sleep_for], sleep, wake, memory check. *)
Definition demo_iter (dt : Q) : list input := [Go; Go; Tick dt; Go; Go].

(** Ten one-second iterations: the tenth data check is due. *)
Definition demo_period : list input :=
  demo_boot ++ concat (replicate 9 (demo_iter 1 ++ [Go])) ++ demo_iter 1.

(** Nine memory checks, the first after a stall of almost a second, the
    last one microsecond before the data deadline. *)
Definition drift_prefix : list input :=
  demo_boot ++ demo_iter (1999999 # 1000000) ++ [Go] ++
  concat (replicate 8 (demo_iter 1 ++ [Go])).

(** ** Theorems *)

(** C1: An upset is never counted twice.  [force_reinit] is never set
    when the data check runs, and when it is set at a memory check, that
    check is due (so [should_update_array] answers [UPDATE_NO_CHECK] and
    the buffer is reallocated before any later scan). *)
Theorem force_reinit_cleared_before_scan (junk : nat -> bool) (grant : sched -> Z -> bool) (s : sched) :
  reachable junk grant s ->
  (s_pc s = PC_DataCheck -> force_reinit (s_det s) = false) /\
  (s_pc s = PC_MemCheck -> force_reinit (s_det s) = true ->
   (CHECK_MEMORY_EVERY <= s_now s - s_last_mem s)%Q).
Proof.
  intros Hr.
  assert (Hf : force_inv s).
  { revert s Hr. apply reachable_inv; [done | apply force_inv_step]. }
  unfold force_inv in Hf. split.
  - intros Hp. destruct (force_reinit (s_det s)); [|done]. rewrite Hp in Hf.
    by destruct (Hf eq_refl).
  - intros Hp Ht. rewrite Hp in Hf. by apply Hf.
Qed.

Lemma force_reinit_cleared_before_scan_witness :
  reachable demo_junk demo_grant (run_inputs demo_junk demo_grant demo_start demo_period) /\
  s_pc (run_inputs demo_junk demo_grant demo_start demo_period) = PC_DataCheck /\
  force_reinit (s_det (run_inputs demo_junk demo_grant demo_start demo_period)) = false.
Proof.
  assert (Hr : reachable demo_junk demo_grant (run_inputs demo_junk demo_grant demo_start demo_period))
    by (apply reachable_run; constructor).
  assert (Hp : s_pc (run_inputs demo_junk demo_grant demo_start demo_period) = PC_DataCheck)
    by (vm_compute; reflexivity).
  split; [exact Hr|]. split; [exact Hp|].
  exact (proj1 (force_reinit_cleared_before_scan demo_junk demo_grant _ Hr) Hp).
Defined.

(** C4: In an environment whose clock advances only while the program
    sleeps, the only exception that can end the detector is the
    [MemoryError] of a refused allocation (spec section 7): no negative
    sleep, no other error; and when the system grants every allocation,
    the detector never crashes. *)
Theorem ideal_never_crashes (junk : nat -> bool) (grant : sched -> Z -> bool)
    (file : option (TStat Q)) (free : N) (now : Q) (l : list input) :
  ideal_run junk grant (init file free now) l = true ->
  (forall e, s_pc (run_inputs junk grant (init file free now) l) = PC_Crashed e ->
     e = MemoryError) /\
  ((forall s u, grant s u = true) ->
     forall e, s_pc (run_inputs junk grant (init file free now) l) <> PC_Crashed e).
Proof.
  intros Hl. apply safe_inv_run in Hl; [|done]. unfold safe_inv in Hl.
  assert (Hc : forall e, s_pc (run_inputs junk grant (init file free now) l) = PC_Crashed e ->
     e = MemoryError) by (intros e He; by rewrite He in Hl).
  split; [exact Hc|]. intros Hg e He. pose proof (Hc e He) as ->.
  by apply (run_no_oom junk grant (init file free now) l Hg).
Qed.

(** Every allocation refused. *)
Definition demo_refuse : sched -> Z -> bool := fun _ _ => false.

Lemma ideal_never_crashes_witness :
  ideal_run demo_junk demo_grant demo_start demo_period = true /\
  s_pc (run_inputs demo_junk demo_grant demo_start demo_period) <> PC_Crashed ValueError /\
  ideal_run demo_junk demo_refuse demo_start [Go; Go] = true /\
  s_pc (run_inputs demo_junk demo_refuse demo_start [Go; Go]) = PC_Crashed MemoryError.
Proof.
  assert (Hi : ideal_run demo_junk demo_grant demo_start demo_period = true)
    by (vm_compute; reflexivity).
  assert (Hr : ideal_run demo_junk demo_refuse demo_start [Go; Go] = true)
    by (vm_compute; reflexivity).
  split; [exact Hi|]. split.
  - exact (proj2 (ideal_never_crashes demo_junk demo_grant None 100 0 _ Hi)
             (fun _ _ => eq_refl) ValueError).
  - split; [exact Hr|]. vm_compute. reflexivity.
Defined.

(** C5: A delay between statements crashes the detector.  After nine
    memory checks (the first delayed by a stall of almost one second),
    the ninth lands one microsecond before the data deadline; if two
    microseconds then pass between the data check ([time.time()] of line
    157) and the computation of [sleep_for] (line 136), [sleep_for] is
    negative and [time.sleep] raises [ValueError], which ends the process.
    Without the delay the same run goes to sleep normally. *)
Theorem sleep_negative_crash :
  s_pc (run_inputs demo_junk demo_grant demo_start
          (drift_prefix ++ [Tick (2 # 1000000); Go; Go])) = PC_Crashed ValueError /\
  is_sleeping (s_pc (run_inputs demo_junk demo_grant demo_start (drift_prefix ++ [Go; Go]))) = true.
Proof. split; vm_compute; reflexivity. Qed.

(** C2: Spec section 8 scenario: a bit flipped before a due data check is
    counted exactly once, [force_reinit] becomes true, the checkpoint is
    persisted, the period ends, and the next sizing decision is
    [UPDATE_NO_CHECK] whatever the free memory. *)
Theorem upset_detected (junk : nat -> bool) (grant : sched -> Z -> bool) (s : sched) (i : nat) :
  s_pc s = PC_DataCheck ->
  (CHECK_DATA_EVERY <= s_now s - s_last_data s)%Q ->
  all_zero (data (s_det s)) = true -> i < length (data (s_det s)) ->
  SEUCases (w_stat (s_world (step junk grant (step junk grant s (Upset i)) Go))) =
    (SEUCases (w_stat (s_world s)) + 1)%Z /\
  force_reinit (s_det (step junk grant (step junk grant s (Upset i)) Go)) = true /\
  s_pc (step junk grant (step junk grant s (Upset i)) Go) = PC_RunOnce /\
  w_file (s_world (step junk grant (step junk grant s (Upset i)) Go)) =
    Some (w_stat (s_world (step junk grant (step junk grant s (Upset i)) Go))) /\
  (forall use_bits, fst (should_update_array
     (s_det (step junk grant (step junk grant s (Upset i)) Go)) use_bits) = UPDATE_NO_CHECK).
Proof.
  destruct s as [[[a f] st fl] now free sa lm ld sm p].
  unfold s_det; simpl. intros -> Hdue Hz Hi.
  unfold step, exec, data_check, set_world, set_det, set_pc; simpl.
  apply Qle_bool_iff in Hdue. rewrite Hdue, check_data_eq. simpl.
  rewrite flip_bit_not_zero by done. simpl.
  repeat split; done.
Qed.

Lemma upset_detected_witness :
  s_pc (run_inputs demo_junk demo_grant demo_start demo_period) = PC_DataCheck /\
  (CHECK_DATA_EVERY <= s_now (run_inputs demo_junk demo_grant demo_start demo_period) -
     s_last_data (run_inputs demo_junk demo_grant demo_start demo_period))%Q /\
  all_zero (data (s_det (run_inputs demo_junk demo_grant demo_start demo_period))) = true /\
  5 < length (data (s_det (run_inputs demo_junk demo_grant demo_start demo_period))) /\
  force_reinit (s_det (step demo_junk demo_grant (step demo_junk demo_grant
     (run_inputs demo_junk demo_grant demo_start demo_period) (Upset 5)) Go)) = true.
Proof.
  assert (H1 : s_pc (run_inputs demo_junk demo_grant demo_start demo_period) = PC_DataCheck)
    by (vm_compute; reflexivity).
  assert (H2 : (CHECK_DATA_EVERY <= s_now (run_inputs demo_junk demo_grant demo_start demo_period) -
     s_last_data (run_inputs demo_junk demo_grant demo_start demo_period))%Q)
    by (vm_compute; discriminate).
  assert (H3 : all_zero (data (s_det (run_inputs demo_junk demo_grant demo_start demo_period))) = true)
    by (vm_compute; reflexivity).
  assert (H4 : 5 < length (data (s_det (run_inputs demo_junk demo_grant demo_start demo_period))))
    by (vm_compute; lia).
  split; [exact H1|]. split; [exact H2|]. split; [exact H3|]. split; [exact H4|].
  exact (proj1 (proj2 (upset_detected demo_junk demo_grant _ 5 H1 H2 H3 H4))).
Defined.

(** C3: No false positives.  In any run in which no particle flips a
    bit, the buffer stays all zero and the upset count on disk stays
    what it was at start-up, however memory and time evolve. *)
Theorem no_upset_no_count (junk : nat -> bool) (grant : sched -> Z -> bool) (file : option (TStat Q))
    (free : N) (now : Q) (l : list input) :
  forallb no_upset l = true ->
  all_zero (data (s_det (run_inputs junk grant (init file free now) l))) = true /\
  SEUCases (load_statistics (w_file (s_world (run_inputs junk grant (init file free now) l)))) =
    SEUCases (load_statistics file).
Proof.
  intros Hl.
  assert (H0 : clean_inv (SEUCases (load_statistics file)) (init file free now)).
  { split; [done|]. split; [done|]. by left. }
  destruct (clean_inv_run junk grant _ _ l H0 Hl) as (Hz & Hf & _). done.
Qed.

Lemma no_upset_no_count_witness :
  forallb no_upset demo_period = true /\
  SEUCases (load_statistics (w_file (s_world
    (run_inputs demo_junk demo_grant demo_start (demo_period ++ [Go]))))) = 0%Z.
Proof.
  assert (Hl : forallb no_upset (demo_period ++ [Go]) = true) by (vm_compute; reflexivity).
  split; [by vm_compute|].
  exact (proj2 (no_upset_no_count demo_junk demo_grant None 100 0 _ Hl)).
Defined.

(** C20: The buffer is a whole number of bytes in every reachable state,
    whatever the probe reports, the particles flip or the clock does:
    [update_array] is only ever called with [get_memory_to_use() * 8]
    bits, and [check_data] and the faults keep the length. *)
Theorem buffer_whole_bytes (junk : nat -> bool) (grant : sched -> Z -> bool) (s : sched) :
  reachable junk grant s -> (len_bits (s_det s) mod 8 = 0)%Z.
Proof.
  revert s. apply reachable_inv; [done | apply whole_bytes_step].
Qed.

Lemma buffer_whole_bytes_witness :
  reachable demo_junk demo_grant (run_inputs demo_junk demo_grant demo_start demo_period) /\
  (len_bits (s_det (run_inputs demo_junk demo_grant demo_start demo_period)) mod 8 = 0)%Z.
Proof.
  assert (Hr : reachable demo_junk demo_grant (run_inputs demo_junk demo_grant demo_start demo_period))
    by (apply reachable_run; constructor).
  split; [exact Hr|]. exact (buffer_whole_bytes demo_junk demo_grant _ Hr).
Defined.

End Scheduler.
