(* ===== verification/Liveness.v ===== *)
(** * Progress of [run_once] under a punctual clock ([Liveness])

    The environment of [Scheduler] may starve the program or wake it
    late; here it is the punctual one of a real machine: it lets the
    program run, and when the program sleeps it advances the clock to
    exactly the wake-up time.  With the free memory unchanged since the
    last allocation, [run_once] then returns to [run]'s loop after ten
    seconds of clock, and it returns through a checkpoint that counts
    those ten seconds.  These are the termination of [run_once]'s
    [while True] loop and the liveness of the statistics.  The last
    theorem shows what a [run_once] that returns through [UPDATE_NO_CHECK]
    loses instead. *)

From S2P Require Import Prelude Arena Sizing Ledger Scheduler.
Import BitArena SizingPolicy Statistics Scheduler.

Module Liveness.

(** The punctual environment: wake the program at its wake-up time. *)
Definition on_time (s : sched) : input :=
  match s_pc s with
  | PC_Sleeping wake => if Qle_bool wake (s_now s) then Go else Tick (wake - s_now s)
  | _ => Go
  end.

(** [n] moves of the punctual environment and the program. *)
Fixpoint drive (junk : nat -> bool) (grant : sched -> Z -> bool) (n : nat) (s : sched)
    : sched :=
  match n with
  | O => s
  | S n => drive junk grant n (step junk grant s (on_time s))
  end.

(** The buffer has the size the current free memory asks for, and no
    re-initialisation is pending: [should_update_array] answers
    [NO_UPDATE]. *)
Definition stable (free : N) (d : detector) : Prop :=
  force_reinit d = false /\ (get_memory_to_use (Z.of_N free) d * 8 = len_bits d)%Z.

(** ** Lemmas *)

Lemma drive_add (junk : nat -> bool) (grant : sched -> Z -> bool) (a b : nat) (s : sched) :
  drive junk grant (a + b) s = drive junk grant b (drive junk grant a s).
Proof. revert s. induction a as [|a IH]; intros s; [done|]. apply IH. Qed.

Lemma drive_S (junk : nat -> bool) (grant : sched -> Z -> bool) (n : nat) (s : sched) :
  drive junk grant (S n) s = drive junk grant n (step junk grant s (on_time s)).
Proof. done. Qed.

Lemma check_data_Ok (start_at now : Q) (w : world Q) :
  exists w', check_data start_at now w = Ok w'.
Proof. rewrite check_data_eq. by eexists. Qed.

Section Drive.

Variable junk : nat -> bool.
Variable grant : sched -> Z -> bool.

(** Executes the next move of the driven program: one [step] on the
    environment's choice, with the comparisons the hypotheses decide
    evaluated and the memory probe found stable. *)
Ltac drive1 :=
  rewrite drive_S;
  unfold on_time, step, exec, mem_check, data_check, set_pc, set_world, set_det, py_min;
  cbn [s_pc s_now s_world s_free s_start_at s_last_mem s_last_data s_sleep_mem
       w_det w_stat w_file];
  repeat match goal with H : (get_memory_to_use _ _ * 8)%Z = len_bits _ |- _ =>
    rewrite H; clear H end;
  rewrite ?should_update_array_same by done;
  unfold CHECK_MEMORY_EVERY, CHECK_DATA_EVERY, NO_UPDATE, UPDATE_NO_CHECK, UPDATE_WITH_CHECK;
  cbn [fst snd Z.eqb Pos.eqb];
  qle_bool_eval;
  cbn [s_pc s_now s_world s_free s_start_at s_last_mem s_last_data s_sleep_mem
       w_det w_stat w_file].

Ltac drive_steps := repeat drive1; cbn [drive].

(** One second of [run_once]'s loop that does not reach the data check:
    sleep until the memory check is due, find the memory unchanged, and
    go back to sleep. *)
Lemma drive_second (w : world Q) (now sa lm sm : Q) (f : N) :
  stable f (w_det w) -> (now == lm)%Q -> (now - sa + 1 < 10)%Q -> (0 <= now - sa)%Q ->
  exists now' sm', (now' == now + 1)%Q /\
    drive junk grant 6 (mk_sched w now f sa lm sa sm PC_SleepMem) =
    mk_sched w now' f sa now' sa sm' PC_SleepMem.
Proof.
  intros [Hf Hu] H1 H2 H3. destruct w as [d st fl]. simpl in Hf, Hu.
  drive_steps.
  eexists _, _. split; [|reflexivity]. lra.
Qed.

(** The tenth second: the data check is due, [check_data] runs and
    [run_once] returns. *)
Lemma drive_last_second (w : world Q) (now sa lm sm : Q) (f : N) :
  stable f (w_det w) -> (now == lm)%Q -> (now - sa == 9)%Q ->
  exists w' now' sm', (now' == now + 1)%Q /\ check_data sa now' w = Ok w' /\
    drive junk grant 6 (mk_sched w now f sa lm sa sm PC_SleepMem) =
    mk_sched w' now' f sa now' sa sm' PC_RunOnce.
Proof.
  intros [Hf Hu] H1 H2. destruct w as [d st fl]. simpl in Hf, Hu.
  drive_steps.
  match goal with |- context [check_data ?a ?b ?c] =>
    destruct (check_data_Ok a b c) as [w' Hw]; rewrite Hw end.
  eexists _, _, _. split; [|split; [exact Hw|reflexivity]]. lra.
Qed.

(** [n + 1] seconds before the data check, [6 * (n + 1)] moves reach the
    return of [run_once] through the checkpoint of its whole period. *)
Lemma drive_seconds (n : nat) : forall (w : world Q) (now sa lm sm : Q) (f : N),
  stable f (w_det w) -> (now == lm)%Q -> (now - sa + inject_Z (Z.of_nat n) == 9)%Q ->
  (0 <= now - sa)%Q ->
  exists w' now' sm', (now' == sa + 10)%Q /\ check_data sa now' w = Ok w' /\
    drive junk grant (6 * S n) (mk_sched w now f sa lm sa sm PC_SleepMem) =
    mk_sched w' now' f sa now' sa sm' PC_RunOnce.
Proof.
  induction n as [|n IH]; intros w now sa lm sm f Hs H1 H2 H3.
  - change (inject_Z (Z.of_nat 0)) with 0%Q in H2.
    destruct (drive_last_second w now sa lm sm f) as (w' & now' & sm' & ? & ? & ?);
      [done|done|lra|]. exists w', now', sm'. split; [lra|done].
  - rewrite Nat2Z.inj_succ, <- Z.add_1_r, inject_Z_plus in H2.
    change (inject_Z 1) with 1%Q in H2.
    pose proof (inject_Z_nat_nonneg n).
    destruct (drive_second w now sa lm sm f) as (now1 & sm1 & E1 & E2); [done|done|lra|lra|].
    replace (6 * S (S n)) with (6 + 6 * S n) by lia. rewrite drive_add, E2.
    apply IH; [done|reflexivity|lra|lra].
Qed.

(** From the first statement of [run_once], with the memory stable, 61
    moves reach its return, ten seconds later, through one checkpoint of
    the ten seconds. *)
Lemma run_once_period (s : sched) :
  s_pc s = PC_RunOnce -> stable (s_free s) (s_det s) ->
  exists w' now' sm', (now' == s_now s + 10)%Q /\
    check_data (s_now s) now' (s_world s) = Ok w' /\
    drive junk grant 61 s = mk_sched w' now' (s_free s) (s_now s) now' (s_now s) sm' PC_RunOnce.
Proof.
  intros Hpc Hs. destruct s as [w now f sa lm ld sm p].
  cbn [s_pc s_now s_free s_world s_det] in *. subst p.
  change 61 with (1 + 6 * S 9). rewrite drive_add.
  change (drive junk grant 1 _) with (mk_sched w now f now now now sm PC_SleepMem).
  apply drive_seconds; [exact Hs|reflexivity| |].
  - change (inject_Z (Z.of_nat 9)) with 9%Q. lra.
  - lra.
Qed.

End Drive.

(** ** Theorems *)

(** C17: Termination of [run_once].  Under the punctual clock, with the
    free memory stable, the [while True] loop of [run_once] returns to
    [run]'s loop after 61 moves, exactly ten seconds of clock later, and
    the free memory is as it was. *)
Theorem run_once_terminates (junk : nat -> bool) (grant : sched -> Z -> bool) (s : sched) :
  s_pc s = PC_RunOnce -> stable (s_free s) (s_det s) ->
  s_pc (drive junk grant 61 s) = PC_RunOnce /\
  (s_now (drive junk grant 61 s) == s_now s + 10)%Q /\ s_free (drive junk grant 61 s) = s_free s.
Proof.
  intros Hpc Hs.
  destruct (run_once_period junk grant s Hpc Hs) as (w' & now' & sm' & Hn & _ & ->).
  cbn [s_pc s_now s_free]. auto.
Qed.

(** C18: Liveness of the statistics.  The same ten seconds end in a
    checkpoint that counts them: [runSeconds] grows by 10, [bitSeconds]
    by ten seconds of the buffer's length, [SEUCases] by one exactly when
    the buffer held a set bit at the start of the period, which also arms
    [force_reinit], and [stat.json] holds the new record. *)
Theorem period_checkpointed (junk : nat -> bool) (grant : sched -> Z -> bool) (s : sched) :
  s_pc s = PC_RunOnce -> stable (s_free s) (s_det s) ->
  let s' := drive junk grant 61 s in
  let found := negb (all_zero (data (s_det s))) in
  (runSeconds (w_stat (s_world s')) == runSeconds (w_stat (s_world s)) + 10)%Q /\
  (bitSeconds (w_stat (s_world s')) ==
     bitSeconds (w_stat (s_world s)) + inject_Z (len_bits (s_det s)) * 10)%Q /\
  SEUCases (w_stat (s_world s')) = (SEUCases (w_stat (s_world s)) + if found then 1 else 0)%Z /\
  force_reinit (s_det s') = found /\
  w_file (s_world s') = Some (w_stat (s_world s')).
Proof.
  intros Hpc Hs s' found. subst s' found.
  destruct (run_once_period junk grant s Hpc Hs) as (w' & now' & sm' & Hn & Hc & ->).
  assert (Hp : (now' - s_now s == 10)%Q) by lra.
  destruct Hs as [Hf _]. unfold s_det in *.
  rewrite check_data_eq in Hc. injection Hc as <-. cbn -[all_zero].
  split; [lra|]. split; [by rewrite Hp|].
  destruct (all_zero _); cbn; repeat split; first [lia | done].
Qed.

(** C19: A period that ends in [UPDATE_NO_CHECK] is not counted.  When the
    memory check is due and [should_update_array] answers
    [UPDATE_NO_CHECK] (a shrink, a release, a first allocation or a
    forced re-initialisation), [run_once] reallocates without
    [check_data]: the statistics and [stat.json] are unchanged, whatever
    time has passed since [start_at].  If the allocation is granted,
    [run_once] returns with a clear buffer, so a set bit the old buffer
    held is never counted; if it is refused, the detector ends with
    [MemoryError]. *)
Theorem no_check_drops_period (junk : nat -> bool) (grant : sched -> Z -> bool) (s : sched) :
  s_pc s = PC_MemCheck -> (CHECK_MEMORY_EVERY <= s_now s - s_last_mem s)%Q ->
  fst (should_update_array (s_det s)
         (get_memory_to_use (Z.of_N (s_free s)) (s_det s) * 8)) = UPDATE_NO_CHECK ->
  let use_bits := (get_memory_to_use (Z.of_N (s_free s)) (s_det s) * 8)%Z in
  let s' := step junk grant s Go in
  w_stat (s_world s') = w_stat (s_world s) /\ w_file (s_world s') = w_file (s_world s) /\
  (grant s use_bits = true ->
     s_pc s' = PC_RunOnce /\ all_zero (data (s_det s')) = true) /\
  (grant s use_bits = false -> s_pc s' = PC_Crashed MemoryError).
Proof.
  intros Hpc Hdue Hc use_bits s'. subst use_bits s'.
  unfold step, exec, mem_check. rewrite Hpc, (proj2 (Qle_bool_iff _ _) Hdue).
  unfold s_det in *.
  destruct (should_update_array _ _) as [c d1]; cbn in Hc; subst c. cbn.
  unfold realloc. rewrite update_array_Ok_eq
    by (pose proof (get_memory_to_use_nonneg (s_free s) (w_det (s_world s))); lia).
  destruct (grant s _); cbn; repeat split; intros; try congruence; auto with seu.
Qed.

(** ** Concrete runs *)

(** A detector sized for 25 free bytes, at the start of [run_once], with
    an upset in bit 3. *)
Definition demo_ready : sched :=
  run_inputs demo_junk demo_grant demo_start [Go; Go; SetFree 25; Upset 3].

(** The same detector one second into [run_once], after the free memory
    has dropped to 0: the buffer is due to shrink from 600 to 448 bits. *)
Definition demo_shrink : sched :=
  run_inputs demo_junk demo_grant demo_start
    [Go; Go; SetFree 25; Go; Upset 3; SetFree 0; Go; Go; Tick 1; Go].

Lemma demo_ready_stable :
  s_pc demo_ready = PC_RunOnce /\ stable (s_free demo_ready) (s_det demo_ready).
Proof. split; [|split]; vm_compute; reflexivity. Qed.

Lemma run_once_terminates_witness :
  s_pc demo_ready = PC_RunOnce /\ stable (s_free demo_ready) (s_det demo_ready) /\
  s_pc (drive demo_junk demo_grant 61 demo_ready) = PC_RunOnce.
Proof.
  destruct demo_ready_stable as [Hpc Hs].
  split; [exact Hpc|split; [exact Hs|]].
  exact (proj1 (run_once_terminates demo_junk demo_grant demo_ready Hpc Hs)).
Defined.

Lemma period_checkpointed_witness :
  s_pc demo_ready = PC_RunOnce /\ stable (s_free demo_ready) (s_det demo_ready) /\
  SEUCases (w_stat (s_world (drive demo_junk demo_grant 61 demo_ready))) = 1%Z.
Proof.
  destruct demo_ready_stable as [Hpc Hs].
  split; [exact Hpc|split; [exact Hs|]].
  destruct (period_checkpointed demo_junk demo_grant demo_ready Hpc Hs) as (_ & _ & -> & _).
  vm_compute. reflexivity.
Defined.

Lemma no_check_drops_period_witness :
  s_pc demo_shrink = PC_MemCheck /\
  (CHECK_MEMORY_EVERY <= s_now demo_shrink - s_last_mem demo_shrink)%Q /\
  all_zero (data (s_det demo_shrink)) = false /\
  SEUCases (w_stat (s_world (step demo_junk demo_grant demo_shrink Go))) = 0%Z.
Proof.
  assert (Hpc : s_pc demo_shrink = PC_MemCheck) by (vm_compute; reflexivity).
  assert (Hdue : (CHECK_MEMORY_EVERY <= s_now demo_shrink - s_last_mem demo_shrink)%Q)
    by (apply Qle_bool_iff; vm_compute; reflexivity).
  assert (Hc : fst (should_update_array (s_det demo_shrink)
     (get_memory_to_use (Z.of_N (s_free demo_shrink)) (s_det demo_shrink) * 8))
     = UPDATE_NO_CHECK) by (vm_compute; reflexivity).
  split; [exact Hpc|split; [exact Hdue|split; [vm_compute; reflexivity|]]].
  destruct (no_check_drops_period demo_junk demo_grant demo_shrink Hpc Hdue Hc) as (-> & _).
  vm_compute. reflexivity.
Defined.

End Liveness.
