(* ===== verification/Logging.v ===== *)
(** * Logging, timing and the memory probe ([Logging])

    [init_logging] configures the module logger, [measure] times a block
    and logs its duration in a [finally], and [get_free_memory] asks
    [psutil]; the core's functions log what they do.  This file models
    the logger as Python's [logging] module treats it (levels, the
    logger's effective level, its handlers with their own levels, the
    last-resort handler when there is none) and the program's effects as
    a state-and-exception monad [M]: the clock ([time.time()] returns the
    successive readings [clock 0], [clock 1], ...), the free memory the
    probe reports, the logger and what reached each sink.  Exceptions
    leave the sinks as written, as they do in Python.

    Messages are the program's log calls with their data ([event]); the
    text the [Formatter] makes of them is not modelled. *)

From S2P Require Import Prelude Arena Sizing Ledger.
From stdpp Require Import strings.
Import BitArena SizingPolicy Statistics.

Local Open Scope string_scope.

Module Logging.

(** ** The [logging] module *)

(** Python's numeric levels. *)
Definition NOTSET : Z := 0.
Definition DEBUG : Z := 10.
Definition INFO : Z := 20.
Definition WARNING : Z := 30.
Definition ERROR : Z := 40.

(** The program's log calls, with the values their f-strings show. *)
Inductive event :=
| EvStart                              (** ['START'] *)
| EvFinish                             (** ['FINISH'] *)
| EvGraceful                           (** ['GRACEFUL EXITING'] *)
| EvUnhandled (e : py_exc)             (** ['unhandled exception ...'] *)
| EvMeasure (name : string) (ms : Q)   (** [f'{name} in {ms}ms'] *)
| EvMemory (free : Z) (used total : Q) (to_use : Z)
| EvUpdate (from to : Z) (gbytes : Q)  (** ['update data from ... to ... bits'] *)
| EvCheckData                          (** ['check_data'] *)
| EvOneNotFound                        (** ['ONE not found'] *)
| EvOneFound (index : nat).            (** [f'ONE was found at {index=}'] *)

(** Where records go: standard error ([StreamHandler()] and the
    last-resort handler) or a file opened with a mode. *)
Inductive sink :=
| Stderr
| LogFile (filename mode : string).

Record handler := mk_handler { h_level : Z; h_sink : sink }.

Record logger := mk_logger { lg_level : Z; lg_handlers : list handler }.

(** [logging.getLogger(__name__)]: level [NOTSET], no handler; its
    parent, the root logger, has level [WARNING] and no handler. *)
Definition logger0 : logger := mk_logger NOTSET [].
Definition root_level : Z := WARNING.

Definition effective_level (lg : logger) : Z :=
  if (lg_level lg =? NOTSET)%Z then root_level else lg_level lg.

(** [logger.addHandler(h)]: [h] is a new object, never already present. *)
Definition add_handler (h : handler) (lg : logger) : logger :=
  mk_logger (lg_level lg) (lg_handlers lg ++ [h]).

(** [init_logging()]. *)
Definition init_logging (lg : logger) : logger :=
  let filename := "detector.log" in
  let filemode := "a" in
  let lg := mk_logger DEBUG (lg_handlers lg) in
  let console := mk_handler INFO Stderr in
  let fh := mk_handler DEBUG (LogFile filename filemode) in
  add_handler fh (add_handler console lg).

(** [logger.log(lvl, ...)]: the records each sink receives.  A record
    below the effective level is dropped; otherwise each handler whose
    level it reaches emits it, and with no handler in the hierarchy the
    last-resort handler ([WARNING], standard error) does. *)
Definition emit (lg : logger) (lvl : Z) (ev : event) : list (sink * Z * event) :=
  if (effective_level lg <=? lvl)%Z then
    match lg_handlers lg with
    | [] => if (WARNING <=? lvl)%Z then [(Stderr, lvl, ev)] else []
    | hs => map (fun h => (h_sink h, lvl, ev))
              (filter (fun h => (h_level h <=? lvl)%Z) hs)
    end
  else [].

(** ** The effects of the program *)

Record env := mk_env {
  e_tick : nat;                          (** how many times [time.time()] was read *)
  e_free : N;                            (** [psutil.virtual_memory().free] *)
  e_logger : logger;
  e_out : list (sink * Z * event)        (** what the sinks received, in order *)
}.

(** A computation: from the environment, a value or a Python exception,
    and the environment after. *)
Definition M (B : Type) : Type := env -> result B * env.

#[export] Instance M_ret : MRet M := fun _ x st => (Ok x, st).
#[export] Instance M_bind : MBind M := fun _ _ f m st =>
  match m st with
  | (Ok x, st') => f x st'
  | (Err e, st') => (Err e, st')
  end.

Definition raise {B} (e : py_exc) : M B := fun st => (Err e, st).

(** A fallible pure computation of the model as a statement. *)
Definition lift {B} (r : result B) : M B := fun st => (r, st).

(** [try: body] [except E: handler(E)]: here every exception is handed to
    the continuation as a value. *)
Definition catch {B} (body : M B) : M (result B) :=
  fun st => let '(r, st') := body st in (Ok r, st').

(** [try: body] [finally: fin]: [fin] runs whatever [body] did; its own
    exception, if any, replaces [body]'s outcome. *)
Definition finally {B} (body : M B) (fin : M unit) : M B :=
  fun st =>
    let '(r, st1) := body st in
    let '(rf, st2) := fin st1 in
    match rf with
    | Err e => (Err e, st2)
    | Ok _ => (r, st2)
    end.

(** [logger.debug], [logger.info], [logger.warning], [logger.exception]. *)
Definition log (lvl : Z) (ev : event) : M unit := fun st =>
  (Ok tt, mk_env (e_tick st) (e_free st) (e_logger st)
            (e_out st ++ emit (e_logger st) lvl ev)).

(** [get_free_memory()]. *)
Definition get_free_memory : M N := fun st => (Ok (e_free st), st).

(** Python's [round(x, n)] on an exact value: to [n] decimals, ties to
    even. *)
Definition round_half_even (q : Q) : Z :=
  let f := Qfloor q in
  let r := (q - inject_Z f)%Q in
  if negb (Qle_bool (1 # 2) r) then f
  else if negb (Qle_bool r (1 # 2)) then (f + 1)%Z
  else if Z.even f then f else (f + 1)%Z.

Definition py_round (q : Q) (n : Z) : Q :=
  (inject_Z (round_half_even (q * inject_Z (10 ^ n))) / inject_Z (10 ^ n))%Q.

Section Clock.

(** The successive readings of [time.time()]. *)
Variable clock : nat -> Q.

Definition time_time : M Q := fun st =>
  (Ok (clock (e_tick st)), mk_env (S (e_tick st)) (e_free st) (e_logger st) (e_out st)).

(** [with measure(name): body]. *)
Definition measure {B} (name : string) (body : M B) : M B :=
  start ← time_time;
  finally body
    (end_ ← time_time;
     let ms := py_round ((end_ - start) * 1000)%Q 3 in
     log DEBUG (EvMeasure name ms)).

End Clock.

(** ** The core's functions with their logging *)

Section Program.
Variable clock : nat -> Q.
Variable junk : nat -> bool.

(** Whether the system grants an allocation of this many bits. *)
Variable grant : Z -> bool.

(** [get_memory_to_use()]. *)
Definition get_memory_to_use_m (d : detector) : M Z :=
  free ← get_free_memory;
  let used := (inject_Z (len_bits d) / 8)%Q in
  let total := (inject_Z (Z.of_N free) + used)%Q in
  let to_use := py_int (total * FREE_MEMORY_USAGE_RATE) in
  log DEBUG (EvMemory (Z.of_N free) used total to_use);;
  mret to_use.


(** [check_data(stat, start_at)]: the clock is read once, the scan is
    timed, and its [ValueError] is caught after [measure] has logged. *)
Definition check_data_m (start_at : Q) (w : world Q) : M (world Q) :=
  log DEBUG EvCheckData;;
  now ← time_time clock;
  let d := w_det w in
  let stat := w_stat w in
  let period := num_sub now start_at in
  let bs := num_add (bitSeconds stat) (num_mul (num_of_Z (len_bits d)) period) in
  let gbh := num_div (num_div bs (num_of_Z 3600)) (num_of_Z (10 ^ 9)) in
  let rs := num_add (runSeconds stat) period in
  let rh := num_div rs (num_of_Z 3600) in
  r ← catch (measure clock "search for ONE" (lift (scan (data d))));
  match r with
  | Err ValueError =>
      log DEBUG EvOneNotFound;;
      let stat' := mk_stat bs gbh (SEUCases stat) rs rh in
      mret (mk_world d stat' (dump_statistics stat'))
  | Err e => raise e
  | Ok index =>
      log WARNING (EvOneFound index);;
      let stat' := mk_stat bs gbh (SEUCases stat + 1)%Z rs rh in
      mret (mk_world (mk_detector (data d) true) stat' (dump_statistics stat'))
  end.

(** [init_logging()] as a statement. *)
Definition init_logging_m : M unit := fun st =>
  (Ok tt, mk_env (e_tick st) (e_free st) (init_logging (e_logger st)) (e_out st)).

(** The [__main__] block around [detector.run()]: [KeyboardInterrupt] is
    a graceful exit, any other exception is logged with its traceback,
    and ['FINISH'] is logged in the [finally]. *)
Definition main_m (run : M unit) : M unit :=
  init_logging_m;;
  log INFO EvStart;;
  finally
    (r ← catch run;
     match r with
     | Ok _ => mret tt
     | Err KeyboardInterrupt => log INFO EvGraceful
     | Err e => log ERROR (EvUnhandled e)
     end)
    (log INFO EvFinish).

End Program.

(** ** Lemmas *)

(** Unfolds the monad: each statement becomes its effect on the
    environment. *)
Ltac m_unfold :=
  cbv beta delta [mbind mret M_bind M_ret measure finally catch lift raise log
    time_time get_free_memory] in *; cbn -[emit py_round scan].

(** What the configured logger sends where. *)
Definition route (lvl : Z) (ev : event) : list (sink * Z * event) :=
  emit (init_logging logger0) lvl ev.

(** ** Theorems *)

(** C25: [init_logging] routes every record to the console (standard
    error) from [INFO] up and to [detector.log], opened for appending,
    from [DEBUG] up; below [DEBUG] nothing is written. *)
Theorem init_logging_routing (lvl : Z) (ev : event) :
  route lvl ev =
    ((if (INFO <=? lvl)%Z then [(Stderr, lvl, ev)] else []) ++
     (if (DEBUG <=? lvl)%Z then [(LogFile "detector.log" "a", lvl, ev)] else []))%list.
Proof.
  unfold route, emit, init_logging, effective_level, add_handler. cbn.
  unfold DEBUG, INFO.
  destruct (Z.leb_spec 10 lvl); destruct (Z.leb_spec 20 lvl); cbn; try reflexivity; lia.
Qed.

(** C26: What a checkpoint writes to the sinks, with the logger
    [init_logging] configured: ['check_data'] and the scan's duration to
    [detector.log], then either ['ONE was found at index'] with the first
    set bit, at [WARNING], to the console and to [detector.log], or ['ONE
    not found'] to [detector.log] only.  Every upset the checkpoint counts
    is reported on the console. *)
Theorem check_data_m_log (clock : nat -> Q) (start_at : Q) (w : world Q) (st : env) :
  e_logger st = init_logging logger0 ->
  e_out (snd (check_data_m clock start_at w st)) =
    (e_out st ++ route DEBUG EvCheckData ++
     route DEBUG (EvMeasure "search for ONE"
       (py_round ((clock (S (S (e_tick st))) - clock (S (e_tick st))) * 1000) 3)) ++
     match first_one (data (w_det w)) with
     | Some i => route WARNING (EvOneFound i)
     | None => route DEBUG EvOneNotFound
     end)%list.
Proof.
  intros Hlg. unfold check_data_m, route. m_unfold. rewrite Hlg, scan_first_one.
  destruct (first_one (data (w_det w))); cbn; by rewrite <- !app_assoc.
Qed.


(** ** Concrete runs *)

(** A clock that reads one second more each time. *)
Definition demo_clock (n : nat) : Q := inject_Z (Z.of_nat n).

(** The environment right after [init_logging()], before any record. *)
Definition demo_env : env := mk_env 0 0 (init_logging logger0) [].

Lemma check_data_m_log_witness :
  e_logger demo_env = init_logging logger0 /\
  In (Stderr, WARNING, EvOneFound 1)
    (e_out (snd (check_data_m demo_clock 0
       (mk_world (mk_detector [false; true] false) stat_default None) demo_env))).
Proof.
  assert (Hlg : e_logger demo_env = init_logging logger0) by reflexivity.
  split; [exact Hlg|]. rewrite (check_data_m_log demo_clock 0 _ demo_env Hlg).
  unfold route. vm_compute. right; right; left. reflexivity.
Defined.


End Logging.
